(** * o365.py: batch management of Office365 users through the Graph API

    A shallow embedding of [src/o365.py] (Python 2) and of the constants of
    [src/o365settings.py], with the properties of its specification.

    Modelling conventions.
    - Python values that reach the script from JSON are [PyVal]s: [None],
      booleans, integers and text.  Text is a string of characters of which
      those above 127 are not ASCII; text from JSON is a [unicode] object,
      which Python 2 encodes with the ASCII codec wherever a [str] is wanted,
      raising [UnicodeEncodeError] when it cannot.  Arrays, objects and
      floats as field values are outside the model.
    - Dictionaries parsed from JSON ([row], the token reply) and [locals()]
      are [gmap]s with string keys; a missing key raises [KeyError].
    - The two module globals that change at run time, the HTTP traffic and
      the CSV writer are the [World].  Code runs in a state monad with
      exceptions in which, as in Python, the state survives a [raise].
    - The remote services are a function [server] from the requests sent so
      far and the present request to a [Reply]: a status with a body, or an
      exception raised while connecting, sending or receiving.  Every request
      that is attempted is recorded on [wire], also when it fails.  Closing a
      connection and serialising a body do not raise.
    - Logging and console output are not modelled, apart from the exception
      that formatting a message can raise. *)

From stdpp Require Import base strings gmap list pretty.

(** ** Python values *)

Inductive PyVal :=
  | PNone
  | PBool (b : bool)
  | PInt (z : Z)
  | PStr (s : string).

#[global] Instance PyVal_eq_dec : EqDecision PyVal.
Proof. solve_decision. Defined.

(** The characters of [str(v)] of Python 2, when it returns. *)
Definition text_of (v : PyVal) : string :=
  match v with
  | PNone => "None"
  | PBool true => "True"
  | PBool false => "False"
  | PInt z => pretty z
  | PStr s => s
  end.

(** Text that the ASCII codec encodes: every character is below 128. *)
Definition ascii_char (c : Ascii.ascii) : bool :=
  match c with Ascii.Ascii _ _ _ _ _ _ _ b7 => negb b7 end.

Fixpoint ascii_text (s : string) : bool :=
  match s with
  | EmptyString => true
  | String c s' => ascii_char c && ascii_text s'
  end.

(** A value that converts to a [str]: anything but text beyond ASCII. *)
Definition encodable (v : PyVal) : bool :=
  match v with
  | PStr s => ascii_text s
  | _ => true
  end.

(** Truth value of [v], as tested by [if not v]. *)
Definition truthy (v : PyVal) : bool :=
  match v with
  | PNone => false
  | PBool b => b
  | PInt z => bool_decide (z ≠ 0%Z)
  | PStr s => bool_decide (s ≠ "")
  end.

(** [pat in s] on strings. *)
Fixpoint str_contains (pat s : string) : bool :=
  if String.prefix pat s then true
  else match s with
       | EmptyString => false
       | String _ s' => str_contains pat s'
       end.

(** ** Requests and replies *)

(** A value handed to [json.dumps]. *)
#[warnings="-register-all"]
Inductive Json :=
  | JStr (s : string)
  | JList (l : list Json)
  | JDict (items : list (string * Json)).

(** The [body] argument of [conn.request]: text, or [json.dumps] of a value. *)
Inductive Body :=
  | Text (s : string)
  | Dumps (j : Json).

Record Request := mkRequest {
  host : string;
  method : string;
  url : string;
  body : Body;
  headers : list (string * string)
}.

(** What comes back: [response.status] and the body when it parses as a
    JSON object, or an exception raised by the connection. *)
Inductive Reply :=
  | Status (code : Z) (data : option (gmap string PyVal))
  | Fail.

(** ** The settings file *)

Record Settings := mkSettings {
  API_VERSION : string;
  CLIENT_ID : string;
  CLIENT_KEY : string;
  O365DOMAIN : string;
  STUPATTERN : string;
  STULICENSE : string;
  EMPLICENSE : string;
  DISABLEDPLANS : list string
}.

(** [o365settings.py] as distributed. *)
Definition o365settings : Settings :=
  {| API_VERSION := "1.6"; CLIENT_ID := ""; CLIENT_KEY := ""; O365DOMAIN := "";
     STUPATTERN := ""; STULICENSE := ""; EMPLICENSE := "";
     DISABLEDPLANS := [""; ""] |}.

(** ** State and exceptions *)

Record World := mkWorld {
  ACCESS_TOKEN : PyVal;            (* the global of that name *)
  wire : list Request;             (* requests sent, oldest first *)
  f_out : list (list PyVal)        (* rows given to the csv writer *)
}.

Inductive Exn :=
  | KeyError (key : string)
  | TypeError
  | ValueError
  | UnboundLocalError (name : string)
  | UnicodeEncodeError
  | HTTPException.

Inductive Result (A : Type) :=
  | Ok (a : A)
  | Raise (e : Exn).
Arguments Ok {A} a.
Arguments Raise {A} e.

Definition M (A : Type) : Type := World → Result A * World.

#[global] Instance M_ret : MRet M := λ A a w, (Ok a, w).
#[global] Instance M_bind : MBind M := λ A B k m w,
  match m w with
  | (Ok a, w') => k a w'
  | (Raise e, w') => (Raise e, w')
  end.

Definition raise {A} (e : Exn) : M A := λ w, (Raise e, w).

(** [try: m except Exception as e: h e] *)
Definition try_except {A} (m : M A) (h : Exn → M A) : M A := λ w,
  match m w with
  | (Ok a, w') => (Ok a, w')
  | (Raise e, w') => h e w'
  end.

Definition read_token : M PyVal := λ w, (Ok (ACCESS_TOKEN w), w).

Definition write_token (t : PyVal) : M unit := λ w,
  (Ok (), {| ACCESS_TOKEN := t; wire := wire w; f_out := f_out w |}).

(** [str(v)] of Python 2 on a value from JSON. *)
Definition str (v : PyVal) : M string :=
  if encodable v then mret (text_of v) else raise UnicodeEncodeError.

(** [template.format(v)] for a [str] template that ends in [{0}]: [v] is
    converted as by [str]. *)
Definition format (template : string) (v : PyVal) : M string :=
  s ← str v; mret (template +:+ s).

(** [writer.writerow(cells)]: the writer of Python 2 converts every cell
    that is not a [str] already as by [str] before it writes the line, and
    writes nothing when one of them does not convert.  The cells that are
    [str] already, the header and the results, are ASCII. *)
Definition writerow (cells : list PyVal) : M unit := λ w,
  if forallb encodable cells then
    (Ok (), {| ACCESS_TOKEN := ACCESS_TOKEN w; wire := wire w;
               f_out := f_out w ++ [cells] |})
  else (Raise UnicodeEncodeError, w).

(** [d[k]] *)
Definition getitem {V} (d : gmap string V) (k : string) : M V :=
  match d !! k with
  | Some v => mret v
  | None => raise (KeyError k)
  end.

(** Reading a local variable that an earlier branch may have left unbound. *)
Definition local {A} (name : string) (v : option A) : M A :=
  match v with
  | Some a => mret a
  | None => raise (UnboundLocalError name)
  end.

(** [s + v] for a [str] literal [s]: defined when [v] is text. *)
Definition str_add (s : string) (v : PyVal) : M string :=
  match v with
  | PStr t => mret (s +:+ t)
  | _ => raise TypeError
  end.

(** State after [readConfig] has set [ACCESS_TOKEN = None] and [main] has
    opened the output file for writing. *)
Definition startup : World :=
  {| ACCESS_TOKEN := PNone; wire := []; f_out := [] |}.

(** [readConfig], lines 494-495: the name of the module to import for the
    settings file [config_file].  [config_file[-3:]] is the last three
    characters, or all of a shorter name; [config_file[:-3]] is what stands
    before them. *)
Definition module_name (config_file : string) : string :=
  let n := String.length config_file in
  if decide (String.substring (n - 3) 3 config_file = ".py")
  then String.substring 0 (n - 3) config_file
  else config_file.

(** ** What a run depends on *)

Record Env := mkEnv {
  (** the globals copied from the settings file by [readConfig] *)
  cfg : Settings;
  (** [urllib.urlencode] on a dictionary of text *)
  urlencode : list (string * string) → string;
  (** the order in which a [for] loop visits a dictionary, given its keys *)
  iter_keys : gset string → list string;
  (** the services behind [login.windows.net] and [graph.windows.net]: the
      reply to a request, given the requests sent before it *)
  server : list Request → Request → Reply
}.

(** A [for] loop over a dictionary visits every key once. *)
Definition iterates_keys (env : Env) : Prop :=
  ∀ keys, iter_keys env keys ≡ₚ elements keys.

Section O365.

Variable env : Env.

(** [conn = httplib.HTTPSConnection(host); conn.request(method, url, body,
    headers); response = conn.getresponse()] with what the callers read of
    the response. *)
Definition request (rq : Request) : M (Z * option (gmap string PyVal)) := λ w,
  let w' := {| ACCESS_TOKEN := ACCESS_TOKEN w; wire := wire w ++ [rq];
               f_out := f_out w |} in
  match server env (wire w) rq with
  | Status code data => (Ok (code, data), w')
  | Fail => (Raise HTTPException, w')
  end.

Definition api_params : string :=
  urlencode env [("api-version", API_VERSION (cfg env))].

(** *** graphConnect (lines 540-586) *)

Definition token_request : Request :=
  {| host := "login.windows.net";
     method := "POST";
     url := "/" +:+ O365DOMAIN (cfg env) +:+ "/oauth2/token?" +:+ api_params;
     body := Text (urlencode env [("redirect_uri", "http://127.0.0.1:8000");
                              ("grant_type", "client_credentials");
                              ("client_id", CLIENT_ID (cfg env));
                              ("client_secret", CLIENT_KEY (cfg env));
                              ("resource", "https://graph.windows.net/")]);
     headers := [] |}.

Definition graphConnect : M unit :=
  try_except
    (response ← request token_request;
     if decide (response.1 = 200%Z) then
       (* json.loads(response.read())['access_token'] *)
       jsondata ← match response.2 with
                  | Some d => mret d
                  | None => raise ValueError
                  end;
       tok ← getitem jsondata "access_token";
       write_token tok
     else mret ())
    (λ _, mret ()).

(** *** findUser (lines 589-622) *)

Definition find_request (upn auth : string) : Request :=
  {| host := "graph.windows.net";
     method := "GET";
     url := "/" +:+ O365DOMAIN (cfg env) +:+ "/users/" +:+ upn +:+ "?" +:+ api_params;
     body := Text "";
     headers := [("Authorization", auth); ("Content-Type", "application/json")] |}.

Definition findUser (upn : string) : M bool :=
  access_token ← read_token;
  auth ← str_add "Bearer " access_token;
  returned ← try_except
    (response ← request (find_request upn auth);
     if decide (response.1 ≠ 200%Z) then mret (Some false) else mret None)
    (λ _, mret None);
  match returned with
  | Some b => mret b
  | None => mret true
  end.

(** *** getUserType (lines 529-537) *)

Definition getUserType (username : string) : string :=
  if str_contains (STUPATTERN (cfg env)) username then "STU" else "EMP".

(** *** The blocks shared by create, update and delete *)

(** [for _item in params: if str(params[_item]) == "": ...]: the first key,
    in iteration order, whose value is blank. *)
Fixpoint first_blank (params : gmap string string) (items : list string)
  : M (option string) :=
  match items with
  | [] => mret None
  | _item :: rest =>
      v ← getitem params _item;
      if decide (v = "") then mret (Some _item) else first_blank params rest
  end.

Definition missing_value (_item : string) : string :=
  "ERROR: Missing an expected input value for " +:+ _item +:+ " in input file.".

Definition auth_error : string :=
  "ERROR: unable to authenticate to MSFT login service.".

(** [if not ACCESS_TOKEN: graphConnect(); if not ACCESS_TOKEN: return ...]:
    [true] when the function goes on. *)
Definition have_token : M bool :=
  tok ← read_token;
  if truthy tok then mret true
  else graphConnect;; tok' ← read_token; mret (truthy tok').

(** *** create (lines 172-306) *)

Definition create_request (upn auth username UDCid givenName fullName sn ou
    userPassword : string) : Request :=
  {| host := "graph.windows.net";
     method := "POST";
     url := "/" +:+ O365DOMAIN (cfg env) +:+ "/users?" +:+ api_params;
     body := Dumps (JDict [
       ("userPrincipalName", JStr upn);
       ("accountEnabled", JStr "true");
       ("givenName", JStr givenName);
       ("displayName", JStr fullName);
       ("surname", JStr sn);
       ("mailNickname", JStr username);
       ("department", JStr ou);
       ("immutableId", JStr UDCid);
       ("passwordProfile", JDict [("password", JStr userPassword);
                                  ("forceChangePasswordNextLogin", JStr "false")]);
       ("passwordPolicies", JStr "DisablePasswordExpiration");
       ("usageLocation", JStr "US")]);
     headers := [("Authorization", auth);
                 ("Content-Type", "application/json; charset=utf-8")] |}.

Definition license_request (upn auth username : string) : Request :=
  let licenses :=
    if decide (getUserType username = "STU")
    then [JDict [("disabledPlans", JList (JStr <$> DISABLEDPLANS (cfg env)));
                 ("skuId", JStr (STULICENSE (cfg env)))]]
    else [JDict [("disabledPlans", JList (JStr <$> DISABLEDPLANS (cfg env)));
                 ("skuId", JStr (EMPLICENSE (cfg env)))]] in
  {| host := "graph.windows.net";
     method := "POST";
     url := "/" +:+ O365DOMAIN (cfg env) +:+ "/users/" +:+ upn
            +:+ "/assignLicense?" +:+ api_params;
     body := Dumps (JDict [("addLicenses", JList licenses);
                           ("removeLicenses", JList [])]);
     headers := [("Authorization", auth);
                 ("Content-Type", "application/json; charset=utf-8")] |}.

Definition create (username loginDisabled UDCid givenName fullName sn ou
    userPassword : string) : M string :=
  let params : gmap string string :=
    {[ "username" := username; "loginDisabled" := loginDisabled;
       "UDCid" := UDCid; "givenName" := givenName; "fullName" := fullName;
       "sn" := sn; "ou" := ou; "userPassword" := userPassword ]} in
  blank ← first_blank params (iter_keys env (dom params));
  match blank with
  | Some _item => mret (missing_value _item)
  | None =>
    ready ← have_token;
    if negb ready then mret auth_error else
    access_token ← read_token;
    let upn := username +:+ "@" +:+ O365DOMAIN (cfg env) in
    taken ← findUser upn;
    if (taken : bool) then mret "ERROR: username already taken!" else
    try_except
      (auth ← str_add "Bearer " access_token;
       response ← request (create_request upn auth username UDCid givenName
                             fullName sn ou userPassword);
       if decide (response.1 ≠ 201%Z) then
         mret "ERROR: user could not be created in o365."
       else
         response ← request (license_request upn auth username);
         if decide (response.1 ≠ 200%Z) then
           mret "SUCCESS: user added but with no licenses in o365."
         else
           mret "SUCCESS: user was created in o365.")
      (λ _, mret "ERROR: could not create o365 user.")
  end.

(** *** update (lines 309-416) *)

Definition patch_request (upn auth newupn accountEnabled givenName fullName sn
    newusername ou : string) : Request :=
  {| host := "graph.windows.net";
     method := "PATCH";
     url := "/" +:+ O365DOMAIN (cfg env) +:+ "/users/" +:+ upn +:+ "?" +:+ api_params;
     body := Dumps (JDict [
       ("userPrincipalName", JStr newupn);
       ("accountEnabled", JStr accountEnabled);
       ("givenName", JStr givenName);
       ("displayName", JStr fullName);
       ("surname", JStr sn);
       ("mailNickname", JStr newusername);
       ("department", JStr ou)]);
     headers := [("Authorization", auth);
                 ("Content-Type", "application/json; charset=utf-8")] |}.

(** The [try] block of lines 362-414, entered with the local [newupn] bound
    ([Some]) or not ([None]). *)
Definition update_try (upn : string) (newupn : option string) (access_token : PyVal)
    (newusername loginDisabled givenName fullName sn ou : string) : M string :=
  try_except
    (auth ← str_add "Bearer " access_token;
     let accountEnabled :=
       if decide (loginDisabled = "True") then "False" else "True" in
     newupn ← local "newupn" newupn;
     response ← request (patch_request upn auth newupn accountEnabled givenName
                           fullName sn newusername ou);
     if decide (response.1 ≠ 204%Z) then
       mret "ERROR: could not update user in o365."
     else
       mret "SUCCESS: user was updated in o365.")
    (λ _, mret "ERROR: Could not update o365 user.").

Definition update (username newusername loginDisabled givenName fullName sn ou
    : string) : M string :=
  let params : gmap string string :=
    {[ "username" := username; "newusername" := newusername;
       "loginDisabled" := loginDisabled; "givenName" := givenName;
       "fullName" := fullName; "sn" := sn; "ou" := ou ]} in
  blank ← first_blank params (iter_keys env (dom params));
  match blank with
  | Some _item => mret (missing_value _item)
  | None =>
    ready ← have_token;
    if negb ready then mret auth_error else
    access_token ← read_token;
    let upn := username +:+ "@" +:+ O365DOMAIN (cfg env) in
    found ← findUser upn;
    if negb found then mret "ERROR: user could not be found in o365!" else
    if decide (username ≠ newusername) then
      let newupn := newusername +:+ "@" +:+ O365DOMAIN (cfg env) in
      taken ← findUser newupn;
      if (taken : bool) then mret "ERROR: username already taken!" else
      update_try upn (Some newupn) access_token newusername loginDisabled
        givenName fullName sn ou
    else
      update_try upn None access_token newusername loginDisabled
        givenName fullName sn ou
  end.

(** *** delete (lines 419-488) *)

Definition delete_request (upn auth : string) : Request :=
  {| host := "graph.windows.net";
     method := "DELETE";
     url := "/" +:+ O365DOMAIN (cfg env) +:+ "/users/" +:+ upn +:+ "?" +:+ api_params;
     body := Text "";
     headers := [("Authorization", auth); ("Content-Type", "application/json")] |}.

Definition delete (username : string) : M string :=
  if decide (username = "") then mret (missing_value "username") else
  ready ← have_token;
  if negb ready then mret auth_error else
  access_token ← read_token;
  let upn := username +:+ "@" +:+ O365DOMAIN (cfg env) in
  found ← findUser upn;
  if negb found then mret "ERROR: user could not be found in o365!" else
  try_except
    (auth ← str_add "Bearer " access_token;
     response ← request (delete_request upn auth);
     if decide (response.1 ≠ 204%Z) then
       mret "ERROR: could not delete user in o365."
     else
       mret "SUCCESS: user deleted in o365.")
    (λ _, mret "ERROR: Could not delete o365 user.").

(** *** main (lines 118-167) *)

(** [str(row[key])], one argument of a call: the field is read, then
    converted, before the next argument is looked at. *)
Definition field (row : gmap string PyVal) (key : string) : M string :=
  getitem row key ≫= str.

(** The action selected for [row] (lines 128-145).  [row["action"]] is read
    once here; the source reads it again in every [elif] and in the last
    branch, with the same outcome.  The last branch formats the action for
    the console and the log before it sets the result. *)
Definition dispatch (row : gmap string PyVal) : M string :=
  action ← getitem row "action";
  if decide (action = PStr "create") then
    username ← field row "username";
    loginDisabled ← field row "loginDisabled";
    UDCid ← field row "UDCid";
    givenName ← field row "givenName";
    fullName ← field row "fullName";
    sn ← field row "sn";
    primO ← field row "primO";
    userPassword ← field row "userPassword";
    create username loginDisabled UDCid givenName fullName sn primO userPassword
  else if decide (action = PStr "update") then
    username ← field row "username";
    newusername ← field row "newusername";
    loginDisabled ← field row "loginDisabled";
    givenName ← field row "givenName";
    fullName ← field row "fullName";
    sn ← field row "sn";
    primO ← field row "primO";
    update username newusername loginDisabled givenName fullName sn primO
  else if decide (action = PStr "delete") then
    username ← field row "username";
    delete username
  else
    format "ERROR: unrecognized action: " action;;
    format "unrecognized action: " action;;
    mret "ERROR: Unrecognized action.".

(** One turn of the loop: select, run, write the result (lines 128-148). *)
Definition process_row (row : gmap string PyVal) : M unit :=
  result ← dispatch row;
  action ← getitem row "action";
  username ← getitem row "username";
  writerow [action; username; PStr result].

(** [for row in reader["useractions"]: ...] *)
Fixpoint for_rows (useractions : list (gmap string PyVal)) : M unit :=
  match useractions with
  | [] => mret ()
  | row :: rest => process_row row;; for_rows rest
  end.

Definition csv_header : list PyVal :=
  [PStr "action"; PStr "username"; PStr "result"].

(** The [try] of [main] once both files are open and the input is parsed
    ([useractions] is [reader["useractions"]]): the header, the loop, and the
    handler of [except Exception], which only reports. *)
Definition main (useractions : list (gmap string PyVal)) : M unit :=
  try_except
    (writerow csv_header;; for_rows useractions)
    (λ _, mret ()).

End O365.

(** *** main with its files (lines 118-169) *)

(** The input file as [main] meets it: [open] raises [IOError]; or
    [json.load] raises [ValueError]; or the document is read, and
    [reader["useractions"]] gives the rows or raises. *)
Inductive InputFile :=
  | Unreadable
  | Malformed
  | Document (useractions : option (list (gmap string PyVal))).

(** [main] from line 118 on: the [try] with its two handlers, which only
    report, and the [finally] that closes [f_in] and [f_out].  The output
    file opens when [writable]; it is opened after the input file, and the
    header is written before the rows are asked for.  A file variable is
    bound when its [open] has returned. *)
Definition main_with_files (env : Env) (input : InputFile) (writable : bool)
  : M unit :=
  let f_in := match input with Unreadable => None | _ => Some () end in
  let f_out := match input with
               | Unreadable => None
               | _ => if writable then Some () else None
               end in
  match input with
  | Unreadable => mret ()                     (* IOError, line 119 *)
  | Malformed => mret ()                      (* IOError, line 121, or
                                                 ValueError, line 123 *)
  | Document useractions =>
      if writable then
        match useractions with
        | Some rows => main env rows
        | None =>
            try_except
              (writerow csv_header;; raise (KeyError "useractions"))
              (λ _, mret ())
        end
      else mret ()                            (* IOError, line 121 *)
  end;;
  local "f_in" f_in;;
  local "f_out" f_out.

(** ** Concrete environments, used to run the model *)

(** [urllib.quote_plus]: letters, digits and [_.-] stand for themselves, a
    space becomes [+], and every other character its code as [%XX]. *)
Definition unreserved (c : Ascii.ascii) : bool :=
  let n := Ascii.N_of_ascii c in
  ((48 <=? n) && (n <=? 57) || (65 <=? n) && (n <=? 90) ||
   (97 <=? n) && (n <=? 122) || (n =? 95) || (n =? 46) || (n =? 45))%N.

Definition hex_digit (n : N) : string :=
  String.substring (N.to_nat n) 1 "0123456789ABCDEF".

Fixpoint quote_plus (s : string) : string :=
  match s with
  | EmptyString => ""
  | String c s' =>
      let n := Ascii.N_of_ascii c in
      if unreserved c then String c (quote_plus s')
      else if (n =? 32)%N then "+" +:+ quote_plus s'
      else "%" +:+ hex_digit (n / 16) +:+ hex_digit (n mod 16) +:+ quote_plus s'
  end.

(** [urllib.urlencode]: the quoted pairs as [k=v], joined by [&]; here in
    the order in which the source lists them. *)
Fixpoint join_pairs (items : list (string * string)) : string :=
  match items with
  | [] => ""
  | [(k, v)] => quote_plus k +:+ "=" +:+ quote_plus v
  | (k, v) :: rest =>
      quote_plus k +:+ "=" +:+ quote_plus v +:+ "&" +:+ join_pairs rest
  end.

Definition campus : Settings :=
  {| API_VERSION := "1.6"; CLIENT_ID := "app"; CLIENT_KEY := "key";
     O365DOMAIN := "campus.edu"; STUPATTERN := "_"; STULICENSE := "sku-stu";
     EMPLICENSE := "sku-emp"; DISABLEDPLANS := ["plan-a"; "plan-b"] |}.

(** A directory service holding the users [present], that grants the token
    [tok] with status [login] and answers the four kinds of directory call
    with the given statuses. *)
Definition directory (present : list string) (login : Z) (tok : PyVal)
    (created licensed patched deleted : Z) (sent : list Request) (rq : Request)
  : Reply :=
  if decide (host rq = "login.windows.net") then
    Status login (Some {[ "access_token" := tok ]})
  else if decide (method rq = "GET") then
    if existsb (λ u, str_contains ("/users/" +:+ u +:+ "@") (url rq)) present
    then Status 200 None else Status 404 None
  else if decide (method rq = "PATCH") then Status patched None
  else if decide (method rq = "DELETE") then Status deleted None
  else if str_contains "/assignLicense?" (url rq) then Status licensed None
  else Status created None.

(** A network on which every connection fails. *)
Definition unreachable (sent : list Request) (rq : Request) : Reply := Fail.

Definition campus_env (srv : list Request → Request → Reply) : Env :=
  {| cfg := campus; urlencode := join_pairs; iter_keys := elements;
     server := srv |}.

(** The directory used in the examples: [alice] and [bob_s] exist. *)
Definition healthy : Env :=
  campus_env (directory ["alice"; "bob_s"] 200 (PStr "t0k3n") 201 200 204 204).

(** A parsed input record with the ten fields of the input format. *)
Definition record (action username newusername loginDisabled : string) (UDCid : Z)
    (givenName fullName sn primO userPassword : string) : gmap string PyVal :=
  {[ "action" := PStr action; "username" := PStr username;
     "newusername" := PStr newusername; "loginDisabled" := PStr loginDisabled;
     "UDCid" := PInt UDCid; "givenName" := PStr givenName;
     "fullName" := PStr fullName; "sn" := PStr sn; "primO" := PStr primO;
     "userPassword" := PStr userPassword ]}.

(** The same campus with other services behind it. *)
Definition locked_out : Env :=
  campus_env (directory ["alice"; "bob_s"] 401 PNone 201 200 204 204).

Definition no_licenses : Env :=
  campus_env (directory ["alice"; "bob_s"] 200 (PStr "t0k3n") 201 403 204 204).

Definition offline : Env := campus_env unreachable.

(** A world in which a token is cached. *)
Definition signed_in : World :=
  {| ACCESS_TOKEN := PStr "t0k3n"; wire := []; f_out := [] |}.

(** Input records of the examples. *)
Definition create_carol : gmap string PyVal :=
  record "create" "carol" "carol" "False" 1554943643675475475437 "Carol"
    "Carol Crane" "Crane" "Biology" "initial password".

Definition edit_alice : gmap string PyVal :=
  record "update" "alice" "alice" "False" 7 "Alice" "Alice Adams" "Adams"
    "Physics" "unused".

Definition rename_alice : gmap string PyVal :=
  record "update" "alice" "alicia" "True" 7 "Alicia" "Alicia Adams" "Adams"
    "Physics" "unused".

Definition delete_bob : gmap string PyVal :=
  record "delete" "bob_s" "bob_s" "False" 8 "Bob" "Bob Stone" "Stone"
    "History" "unused".

Definition bogus_row : gmap string PyVal :=
  {[ "action" := PStr "bogus"; "username" := PStr "x" ]}.

Definition nameless_delete : gmap string PyVal :=
  {[ "action" := PStr "delete" ]}.

(** A record whose username is JSON [null]. *)
Definition delete_null : gmap string PyVal :=
  {[ "action" := PStr "delete"; "username" := PNone ]}.

(** A record whose username is text beyond ASCII: [jos] and U+00E9. *)
Definition jose : string := "jos" +:+ String (Ascii.ascii_of_nat 233) "".

Definition delete_jose : gmap string PyVal :=
  {[ "action" := PStr "delete"; "username" := PStr jose ]}.

(** A directory whose lookups raise and whose other calls are answered 204. *)
Definition blind : Env :=
  campus_env (λ sent rq, if decide (method rq = "GET") then Fail
                         else Status 204 None).

(** More services for the same campus: a directory that refuses to create
    (409), and a login service that grants a number for a token. *)
Definition refusing : Env :=
  campus_env (directory ["alice"; "bob_s"] 200 (PStr "t0k3n") 409 200 204 204).

Definition numeric_token : Env :=
  campus_env (directory ["alice"; "bob_s"] 200 (PInt 5) 201 200 204 204).

(** ** Vocabulary of the statements *)

(** A result as the output format promises it. *)
Definition reported (result : string) : Prop :=
  String.prefix "SUCCESS:" result = true ∨ String.prefix "ERROR:" result = true.

(** The requests the script can send to the directory resource. *)
Inductive directory_call (env : Env) : Request → Prop :=
  | call_find upn auth :
      directory_call env (find_request env upn auth)
  | call_create upn auth username UDCid givenName fullName sn ou userPassword :
      directory_call env (create_request env upn auth username UDCid givenName
                            fullName sn ou userPassword)
  | call_license upn auth username :
      directory_call env (license_request env upn auth username)
  | call_patch upn auth newupn accountEnabled givenName fullName sn newusername ou :
      directory_call env (patch_request env upn auth newupn accountEnabled
                            givenName fullName sn newusername ou)
  | call_delete upn auth :
      directory_call env (delete_request env upn auth).

(** The authentication requests among [sent]. *)
Definition auth_requests (sent : list Request) : list Request :=
  filter (λ rq, host rq = "login.windows.net") sent.

(** The keys of a request body that is a JSON object. *)
Definition body_keys (rq : Request) : list string :=
  match body rq with
  | Dumps (JDict items) => items.*1
  | _ => []
  end.

(** The value of [key] in a request body that is a JSON object. *)
Definition body_field (key : string) (rq : Request) : option Json :=
  match body rq with
  | Dumps (JDict items) => snd <$> find (λ kv, bool_decide (kv.1 = key)) items
  | _ => None
  end.

(** [m] leaves the token and the output alone, sends only requests that
    satisfy [P], and returns only values that satisfy [Q]. *)
Definition confined {A} (P : Request → Prop) (Q : A → Prop) (m : M A) : Prop :=
  ∀ w,
    ACCESS_TOKEN (m w).2 = ACCESS_TOKEN w ∧
    f_out (m w).2 = f_out w ∧
    (∃ new, wire (m w).2 = wire w ++ new ∧ Forall P new) ∧
    (∀ a, (m w).1 = Ok a → Q a).

(** What every one of [create], [update] and [delete] does, whatever its
    arguments: nothing at all besides the report when an argument is blank;
    requests in [P] only when a token is cached; otherwise one authentication
    request first, and nothing after it when no token came back. *)
Definition action_shape (env : Env) (P : Request → Prop) (m : M string) : Prop :=
  ∀ w,
    f_out (m w).2 = f_out w ∧
    (∀ result, (m w).1 = Ok result → reported result) ∧
    ((m w).2 = w
     ∨ (truthy (ACCESS_TOKEN w) = true ∧
        ACCESS_TOKEN (m w).2 = ACCESS_TOKEN w ∧
        ∃ new, wire (m w).2 = wire w ++ new ∧ Forall P new)
     ∨ (truthy (ACCESS_TOKEN w) = false ∧
        ∃ new, wire (m w).2 = wire w ++ token_request env :: new ∧
               Forall P new ∧
               (truthy (ACCESS_TOKEN (m w).2) = false →
                new = [] ∧ (m w).1 = Ok auth_error))).



(** [m] leaves the world alone, whether it returns or raises. *)
Definition idle {A} (m : M A) : Prop := ∀ w, (m w).2 = w.

(** [m] returns only values in [Q]. *)
Definition returns_only {A} (Q : A → Prop) (m : M A) : Prop :=
  ∀ w a, (m w).1 = Ok a → Q a.

(** Every text of [row] is within ASCII. *)
Definition ascii_row (row : gmap string PyVal) : Prop :=
  map_Forall (λ _ v, encodable v = true) row.

(** A call of one of the three action functions, with its arguments. *)
Inductive Call :=
  | Create (username loginDisabled UDCid givenName fullName sn ou
      userPassword : string)
  | Update (username newusername loginDisabled givenName fullName sn ou : string)
  | Delete (username : string).

Definition invoke (env : Env) (c : Call) : M string :=
  match c with
  | Create username loginDisabled UDCid givenName fullName sn ou userPassword =>
      create env username loginDisabled UDCid givenName fullName sn ou userPassword
  | Update username newusername loginDisabled givenName fullName sn ou =>
      update env username newusername loginDisabled givenName fullName sn ou
  | Delete username => delete env username
  end.

(** The required arguments of a call, by parameter name. *)
Definition arguments (c : Call) : list (string * string) :=
  match c with
  | Create username loginDisabled UDCid givenName fullName sn ou userPassword =>
      [("username", username); ("loginDisabled", loginDisabled);
       ("UDCid", UDCid); ("givenName", givenName); ("fullName", fullName);
       ("sn", sn); ("ou", ou); ("userPassword", userPassword)]
  | Update username newusername loginDisabled givenName fullName sn ou =>
      [("username", username); ("newusername", newusername);
       ("loginDisabled", loginDisabled); ("givenName", givenName);
       ("fullName", fullName); ("sn", sn); ("ou", ou)]
  | Delete username => [("username", username)]
  end.

(** An output row that answers [row]: its action and username, and a result. *)
Definition answers (row : gmap string PyVal) (cells : list PyVal) : Prop :=
  ∃ action username result,
    row !! "action" = Some action ∧ row !! "username" = Some username ∧
    cells = [action; username; PStr result].

(** The world in which the loop of [main] starts: the header is written. *)
Definition header_written (w : World) : World := (writerow csv_header w).2.

(** The keys of [row] that [main] reads to build the arguments of the action
    [action] (lines 130-141), in the order in which it reads them. *)
Definition fields_read (action : PyVal) : list string :=
  if decide (action = PStr "create") then
    ["username"; "loginDisabled"; "UDCid"; "givenName"; "fullName"; "sn";
     "primO"; "userPassword"]
  else if decide (action = PStr "update") then
    ["username"; "newusername"; "loginDisabled"; "givenName"; "fullName"; "sn";
     "primO"]
  else if decide (action = PStr "delete") then ["username"]
  else [].

(** A row that has every key a turn of the loop reads. *)
Definition complete_row (row : gmap string PyVal) : Prop :=
  ∃ action, row !! "action" = Some action ∧ is_Some (row !! "username") ∧
            Forall (λ k, is_Some (row !! k)) (fields_read action).

(** A login service whose tokens are text: what it grants with status 200
    is text whenever it is true as a condition. *)
Definition grants_text (env : Env) : Prop :=
  ∀ sent data tok,
    server env sent (token_request env) = Status 200 (Some data) →
    data !! "access_token" = Some tok →
    truthy tok = true → ∃ s, tok = PStr s.

(** The path of a request below the domain: its url is the domain, this
    path and the query. *)
Definition below_domain (env : Env) (path : string) (rq : Request) : Prop :=
  url rq = "/" +:+ O365DOMAIN (cfg env) +:+ path +:+ "?" +:+ api_params env.

(** The cached token is text whenever it passes for true. *)
Definition token_usable (w : World) : Prop :=
  truthy (ACCESS_TOKEN w) = true → ∃ s, ACCESS_TOKEN w = PStr s.

(** Started with a text token, [m] returns and leaves the token alone. *)
Definition steady {A} (m : M A) : Prop :=
  ∀ w s, ACCESS_TOKEN w = PStr s →
         (∃ a, (m w).1 = Ok a) ∧ ACCESS_TOKEN (m w).2 = ACCESS_TOKEN w.

(** * Properties *)

(** ** Running the monad *)

Lemma bind_run {A B} (m : M A) (k : A → M B) (w : World) :
  (m ≫= k) w =
    match m w with
    | (Ok a, w') => k a w'
    | (Raise e, w') => (Raise e, w')
    end.
Proof. done. Qed.

(** ** Rules for [confined] *)

Section Rules.

Context {A B : Type} (P : Request → Prop).

Lemma confined_ret (Q : A → Prop) (a : A) : Q a → confined P Q (mret a).
Proof.
  intros Ha w. cbn. repeat split; [|naive_solver].
  exists []. by rewrite app_nil_r.
Qed.

Lemma confined_raise (Q : A → Prop) (e : Exn) : confined P Q (raise e).
Proof.
  intros w. cbn. repeat split; [|naive_solver].
  exists []. by rewrite app_nil_r.
Qed.

Lemma confined_bind (Q : A → Prop) (R : B → Prop) (m : M A) (k : A → M B) :
  confined P Q m → (∀ a, Q a → confined P R (k a)) → confined P R (m ≫= k).
Proof.
  intros Hm Hk w. destruct (Hm w) as (Ht & Ho & (new & Hw & Hn) & Hq).
  unfold mbind, M_bind. destruct (m w) as [[a|e] w1] eqn:E; cbn in *.
  - destruct (Hk a (Hq a eq_refl) w1) as (Ht' & Ho' & (new' & Hw' & Hn') & Hq').
    repeat split; [congruence | congruence | | done].
    exists (new ++ new'). rewrite Hw', Hw, app_assoc. split; [done|].
    by apply Forall_app.
  - repeat split; [done | done | eauto | naive_solver].
Qed.

Lemma confined_try (Q : A → Prop) (Q' : A → Prop) (m : M A) (h : Exn → M A) :
  confined P Q m → (∀ a, Q a → Q' a) → (∀ e, confined P Q' (h e)) →
  confined P Q' (try_except m h).
Proof.
  intros Hm Himp Hh w. destruct (Hm w) as (Ht & Ho & (new & Hw & Hn) & Hq).
  unfold try_except. destruct (m w) as [[a|e] w1] eqn:E; cbn in *.
  - repeat split; [done | done | eauto | naive_solver].
  - destruct (Hh e w1) as (Ht' & Ho' & (new' & Hw' & Hn') & Hq').
    repeat split; [congruence | congruence | | done].
    exists (new ++ new'). rewrite Hw', Hw, app_assoc. split; [done|].
    by apply Forall_app.
Qed.

Lemma confined_weaken (Q Q' : A → Prop) (m : M A) :
  confined P Q m → (∀ a, Q a → Q' a) → confined P Q' m.
Proof.
  intros Hm Himp w. destruct (Hm w) as (Ht & Ho & Hw & Hq).
  repeat split; auto.
Qed.

Lemma confined_seq (R : B → Prop) (m : M A) (k : A → M B) :
  confined P (λ _, True) m → (∀ a, confined P R (k a)) → confined P R (m ≫= k).
Proof. intros Hm Hk. eapply confined_bind; eauto. Qed.

Lemma confined_handle (Q : A → Prop) (m : M A) (h : Exn → M A) :
  confined P Q m → (∀ e, confined P Q (h e)) → confined P Q (try_except m h).
Proof. intros Hm Hh. eapply confined_try; eauto. Qed.

End Rules.

(** ** The primitives *)

Section Primitives.

Context (env : Env) (P : Request → Prop).

Lemma confined_request (rq : Request) :
  P rq → confined P (λ _, True) (request env rq).
Proof.
  intros Hrq w. unfold request.
  destruct (server env (wire w) rq); cbn; repeat split; eauto.
Qed.

Lemma confined_read_token : confined P (λ _, True) read_token.
Proof. intros w. cbn. repeat split; auto. exists []. by rewrite app_nil_r. Qed.

Lemma confined_getitem {V} (d : gmap string V) (k : string) :
  confined P (λ _, True) (getitem d k).
Proof.
  unfold getitem. destruct (d !! k); [by apply confined_ret | apply confined_raise].
Qed.

Lemma confined_local {A} (name : string) (v : option A) :
  confined P (λ _, True) (local name v).
Proof. destruct v; [by apply confined_ret | apply confined_raise]. Qed.

Lemma confined_str_add (s : string) (v : PyVal) :
  confined P (λ _, True) (str_add s v).
Proof. destruct v; cbn; first [by apply confined_ret | apply confined_raise]. Qed.

End Primitives.

(** Splits a [confined] goal along the structure of the program. *)
Ltac confine :=
  repeat match goal with
    | |- confined _ _ (request _ _) => apply confined_request
    | |- confined _ _ read_token => apply confined_read_token
    | |- confined _ _ (getitem _ _) => apply confined_getitem
    | |- confined _ _ (local _ _) => apply confined_local
    | |- confined _ _ (str_add _ _) => apply confined_str_add
    | |- confined _ _ (raise _) => apply confined_raise
    | |- confined _ _ (mret _) => apply confined_ret
    | |- confined _ _ (_ ≫= _) => apply confined_seq; [ | intros ? ]
    | |- confined _ _ (try_except _ _) => apply confined_handle; [ | intros ? ]
    | |- confined _ _ (if ?c then _ else _) => destruct c
    | |- confined _ _ (match ?x with _ => _ end) => destruct x
    end.

Section Actions.

Variable env : Env.

(** ** findUser *)

(** What [findUser] returns when the token is text: [False] exactly on a
    reply whose status is not 200. *)
Lemma findUser_run (upn tok : string) (w : World) :
  ACCESS_TOKEN w = PStr tok →
  findUser env upn w =
    (Ok (match server env (wire w) (find_request env upn ("Bearer " +:+ tok)) with
         | Status code _ => bool_decide (code = 200%Z)
         | Fail => true
         end),
     {| ACCESS_TOKEN := ACCESS_TOKEN w;
        wire := wire w ++ [find_request env upn ("Bearer " +:+ tok)];
        f_out := f_out w |}).
Proof.
  intros Htok. unfold findUser, read_token, try_except, request, mbind, M_bind.
  rewrite Htok. cbn.
  destruct (server env (wire w) _) as [code data|]; cbn; rewrite ?Htok; [|done].
  case_decide; case_bool_decide; done.
Qed.

(** A token that is not text makes [findUser] raise before it connects. *)
Lemma findUser_raises (upn : string) (w : World) :
  (∀ tok, ACCESS_TOKEN w ≠ PStr tok) → findUser env upn w = (Raise TypeError, w).
Proof.
  intros Htok. unfold findUser, read_token, mbind, M_bind.
  destruct (ACCESS_TOKEN w) eqn:E; cbn; try done. by destruct (Htok s).
Qed.

Lemma findUser_confined (P : Request → Prop) (upn : string) :
  (∀ auth, P (find_request env upn auth)) →
  confined P (λ _, True) (findUser env upn).
Proof. intros HP. unfold findUser. confine; auto. Qed.

(** ** graphConnect and the token gate *)

Lemma graphConnect_run (w : World) :
  ∃ tok,
    graphConnect env w =
      (Ok (), {| ACCESS_TOKEN := tok; wire := wire w ++ [token_request env];
                 f_out := f_out w |}) ∧
    (tok = ACCESS_TOKEN w ∨
     ∃ data, server env (wire w) (token_request env) = Status 200 (Some data) ∧
             data !! "access_token" = Some tok).
Proof.
  unfold graphConnect, try_except, request, mbind, M_bind, getitem, write_token.
  destruct (server env (wire w) (token_request env)) as [code [data|]|] eqn:E;
    cbn; try case_decide; cbn; subst; eauto.
  destruct (data !! "access_token") as [tok|] eqn:Etok; cbn; eauto 7.
Qed.

Lemma have_token_cached (w : World) :
  truthy (ACCESS_TOKEN w) = true → have_token env w = (Ok true, w).
Proof.
  intros Ht. unfold have_token, read_token, mbind, M_bind. by rewrite Ht.
Qed.

Lemma have_token_absent (w : World) :
  truthy (ACCESS_TOKEN w) = false →
  have_token env w =
    (Ok (truthy (ACCESS_TOKEN (graphConnect env w).2)), (graphConnect env w).2).
Proof.
  intros Ht. unfold have_token, read_token, mbind, M_bind. rewrite Ht.
  destruct (graphConnect_run w) as (tok & -> & _). done.
Qed.

(** ** The shape of an action *)

Lemma first_blank_cases (params : gmap string string) (items : list string)
    (w : World) :
  (∃ _item, first_blank params items w = (Ok (Some _item), w)) ∨
  first_blank params items w = (Ok None, w) ∨
  (∃ e, first_blank params items w = (Raise e, w)).
Proof.
  induction items as [|k items IH]; cbn; [by auto|].
  unfold mbind, M_bind, getitem.
  destruct (params !! k) as [v|]; cbn; [|by eauto].
  case_decide; cbn; eauto.
Qed.

Lemma reported_missing_value (_item : string) : reported (missing_value _item).
Proof. by right. Qed.

Lemma reported_auth_error : reported auth_error.
Proof. by right. Qed.

Lemma shape_ret (P : Request → Prop) (result : string) :
  reported result → action_shape env P (mret result).
Proof. intros Hr w. cbn. repeat split; [naive_solver | by left]. Qed.

Lemma shape_raise (P : Request → Prop) (e : Exn) : action_shape env P (raise e).
Proof. intros w. cbn. repeat split; [naive_solver | by left]. Qed.

Lemma shape_getitem {V} (P : Request → Prop) (d : gmap string V) (k : string)
    (f : V → M string) :
  (∀ v, action_shape env P (f v)) → action_shape env P (getitem d k ≫= f).
Proof.
  intros Hf. unfold getitem. destruct (d !! k) as [v|]; [apply Hf|].
  apply shape_raise.
Qed.

Lemma idle_getitem {V} (d : gmap string V) (k : string) : idle (getitem d k).
Proof. intros w. unfold getitem. by destruct (d !! k). Qed.

Lemma idle_str (v : PyVal) : idle (str v).
Proof. intros w. unfold str. by destruct (encodable v). Qed.

Lemma idle_field (row : gmap string PyVal) (k : string) : idle (field row k).
Proof.
  intros w. unfold field, getitem. rewrite bind_run.
  destruct (row !! k) as [v|]; [apply idle_str | done].
Qed.

Lemma idle_format (template : string) (v : PyVal) : idle (format template v).
Proof.
  intros w. unfold format, str. rewrite bind_run. by destruct (encodable v).
Qed.

Lemma shape_idle {V} (P : Request → Prop) (m : M V) (f : V → M string) :
  idle m → (∀ v, action_shape env P (f v)) → action_shape env P (m ≫= f).
Proof.
  intros Hm Hf w. rewrite bind_run. specialize (Hm w).
  destruct (m w) as [[v|e] w1]; cbn in Hm; subst w1; [apply Hf|].
  apply (shape_raise P e).
Qed.

Lemma shape_validated (P : Request → Prop) (params : gmap string string)
    (items : list string) (m : M string) :
  action_shape env P m →
  action_shape env P
    (blank ← first_blank params items;
     match blank with
     | Some _item => mret (missing_value _item)
     | None => m
     end).
Proof.
  intros Hm w. unfold mbind, M_bind.
  destruct (first_blank_cases params items w) as [[i ->]|[->|[e ->]]].
  - apply (shape_ret P _ (reported_missing_value i)).
  - apply Hm.
  - apply (shape_raise P e).
Qed.

Lemma shape_gated (P : Request → Prop) (tail : M string) :
  confined P reported tail →
  action_shape env P
    (ready ← have_token env; if negb ready then mret auth_error else tail).
Proof.
  intros Htail w. unfold mbind, M_bind.
  destruct (truthy (ACCESS_TOKEN w)) eqn:Ht.
  - rewrite (have_token_cached w Ht). cbn.
    destruct (Htail w) as (Htok & Hout & Hwire & Hres).
    repeat split; auto.
  - rewrite (have_token_absent w Ht).
    destruct (graphConnect_run w) as (tok & -> & _). cbn.
    destruct (truthy tok) eqn:Ht'; cbn.
    + set (w1 := {| ACCESS_TOKEN := tok; wire := _; f_out := _ |}).
      destruct (Htail w1) as (Htok & Hout & (new & Hwire & Hnew) & Hres).
      repeat split; [done | done |]. right; right. split; [done|].
      exists new. rewrite Hwire. cbn. rewrite <- app_assoc. cbn.
      split; [done|]. split; [done|]. rewrite Htok. cbn. congruence.
    + split; [done|]. split.
      { intros result [= <-]. apply reported_auth_error. }
      right; right. split; [done|]. exists []. auto.
Qed.

(** The token block entered without a token: the authentication request is
    sent first, and when no token comes back nothing follows it. *)
Lemma gate_absent (P : Request → Prop) (tail : M string) (w : World) :
  confined P reported tail →
  truthy (ACCESS_TOKEN w) = false →
  ∃ calls,
    wire ((ready ← have_token env;
           if negb ready then mret auth_error else tail) w).2
      = wire w ++ token_request env :: calls ∧
    Forall P calls ∧
    (truthy (ACCESS_TOKEN ((ready ← have_token env;
                            if negb ready then mret auth_error else tail) w).2)
       = false →
     calls = [] ∧
     ((ready ← have_token env;
       if negb ready then mret auth_error else tail) w).1 = Ok auth_error).
Proof.
  intros Htail Ht. rewrite bind_run, (have_token_absent w Ht).
  destruct (graphConnect_run w) as (tok & -> & _). cbn [fst snd ACCESS_TOKEN].
  destruct (truthy tok) eqn:Ht'; cbn [negb].
  - set (w1 := {| ACCESS_TOKEN := tok; wire := _; f_out := _ |}).
    destruct (Htail w1) as (Htok & _ & (new & Hwire & Hnew) & _).
    exists new. rewrite Hwire, Htok. cbn [wire ACCESS_TOKEN w1].
    rewrite <- app_assoc. split; [done|]. split; [done|]. congruence.
  - exists []. cbn. auto.
Qed.

Lemma create_shape (P : Request → Prop)
    (username loginDisabled UDCid givenName fullName sn ou userPassword : string) :
  (∀ upn auth, P (find_request env upn auth)) →
  (∀ upn auth, P (create_request env upn auth username UDCid givenName fullName
                    sn ou userPassword)) →
  (∀ upn auth, P (license_request env upn auth username)) →
  action_shape env P
    (create env username loginDisabled UDCid givenName fullName sn ou userPassword).
Proof.
  intros Hfind Hcreate Hlicense. unfold create. cbv zeta.
  apply shape_validated, shape_gated.
  confine; auto using findUser_confined; try by left. all: by right.
Qed.

Lemma update_shape (P : Request → Prop)
    (username newusername loginDisabled givenName fullName sn ou : string) :
  (∀ upn auth, P (find_request env upn auth)) →
  (∀ upn auth newupn accountEnabled,
     P (patch_request env upn auth newupn accountEnabled givenName fullName sn
          newusername ou)) →
  action_shape env P
    (update env username newusername loginDisabled givenName fullName sn ou).
Proof.
  intros Hfind Hpatch. unfold update, update_try. cbv zeta.
  apply shape_validated, shape_gated.
  confine; auto using findUser_confined; try by left. all: by right.
Qed.

Lemma delete_shape (P : Request → Prop) (username : string) :
  (∀ upn auth, P (find_request env upn auth)) →
  (∀ upn auth, P (delete_request env upn auth)) →
  action_shape env P (delete env username).
Proof.
  intros Hfind Hdelete. unfold delete. cbv zeta.
  case_decide; [apply shape_ret, reported_missing_value|].
  apply shape_gated.
  confine; auto using findUser_confined; try by left. all: by right.
Qed.

Lemma invoke_shape (c : Call) : action_shape env (directory_call env) (invoke env c).
Proof.
  destruct c; cbn;
    [apply create_shape | apply update_shape | apply delete_shape];
    intros; constructor.
Qed.

Lemma dispatch_shape (row : gmap string PyVal) :
  action_shape env (directory_call env) (dispatch env row).
Proof.
  unfold dispatch. apply shape_getitem; intros action.
  repeat case_decide.
  - repeat (apply shape_idle; [apply idle_field|]; intros ?).
    apply (invoke_shape (Create _ _ _ _ _ _ _ _)).
  - repeat (apply shape_idle; [apply idle_field|]; intros ?).
    apply (invoke_shape (Update _ _ _ _ _ _ _)).
  - repeat (apply shape_idle; [apply idle_field|]; intros ?).
    apply (invoke_shape (Delete _)).
  - repeat (apply shape_idle; [apply idle_format|]; intros ?).
    apply shape_ret. by right.
Qed.

End Actions.

(** ** Exceptions that leave an action *)

Section Exceptions.

Context {A B : Type} (E : Exn → Prop).





End Exceptions.

Section Faults.

Variable env : Env.







End Faults.


Section RowFaults.

Variable env : Env.






End RowFaults.

(** ** The loop of [main] *)

Section Loop.

Variable env : Env.

(** One turn either writes one row that answers the input row and carries a
    reported result, or raises and writes nothing. *)
Lemma process_row_cases (row : gmap string PyVal) (w : World) :
  (∃ action username result,
     row !! "action" = Some action ∧ row !! "username" = Some username ∧
     reported result ∧
     process_row env row w =
       (Ok (), {| ACCESS_TOKEN := ACCESS_TOKEN (dispatch env row w).2;
                  wire := wire (dispatch env row w).2;
                  f_out := f_out w ++ [[action; username; PStr result]] |}))
  ∨ (∃ e, process_row env row w = (Raise e, (dispatch env row w).2) ∧
          f_out (dispatch env row w).2 = f_out w).
Proof.
  destruct (dispatch_shape env row w) as (Hout & Hrep & _).
  unfold process_row, mbind, M_bind, getitem, writerow.
  destruct (dispatch env row w) as [[result|e] w1]; cbn in *; [|by eauto].
  destruct (row !! "action") as [action|]; cbn; [|by eauto].
  destruct (row !! "username") as [username|]; cbn; [|by eauto].
  destruct (encodable action && _); [|by eauto].
  left. exists action, username, result. rewrite Hout. auto.
Qed.

Lemma process_row_wire (row : gmap string PyVal) (w : World) :
  wire (process_row env row w).2 = wire (dispatch env row w).2 ∧
  ACCESS_TOKEN (process_row env row w).2 = ACCESS_TOKEN (dispatch env row w).2.
Proof.
  destruct (process_row_cases row w) as [(a & u & r & _ & _ & _ & ->)|(e & -> & _)];
    done.
Qed.

Lemma for_rows_cons (row : gmap string PyVal) (rest : list (gmap string PyVal))
    (w : World) :
  for_rows env (row :: rest) w =
    match process_row env row w with
    | (Ok _, w1) => for_rows env rest w1
    | (Raise e, w1) => (Raise e, w1)
    end.
Proof. done. Qed.

(** What the loop writes: rows that answer the input rows in order, up to
    the first row on which a turn raises. *)
Lemma for_rows_output (rows : list (gmap string PyVal)) (w : World) :
  ∃ n written,
    f_out (for_rows env rows w).2 = f_out w ++ written ∧
    Forall2 answers (take n rows) written ∧
    Forall (λ cells, ∃ action username result,
              cells = [action; username; PStr result] ∧ reported result) written ∧
    ((n = length rows ∧ (for_rows env rows w).1 = Ok ()) ∨
     (∃ row e, rows !! n = Some row ∧
               (process_row env row (for_rows env (take n rows) w).2).1 = Raise e ∧
               (for_rows env rows w).1 = Raise e)).
Proof.
  revert w. induction rows as [|row rest IH]; intros w.
  { exists 0, []. cbn. rewrite app_nil_r. repeat split; auto. }
  rewrite for_rows_cons.
  destruct (process_row_cases row w)
    as [(a & u & r & Ha & Hu & Hr & Hrun)|(e & Hrun & Hout)].
  - destruct (IH (process_row env row w).2) as (n & written & Hw & Hans & Hrep & Hn).
    exists (S n), ([a; u; PStr r] :: written).
    rewrite !firstn_cons, for_rows_cons. rewrite Hrun in *. cbn in *.
    split; [by rewrite Hw, <- app_assoc|].
    split; [constructor; [by exists a, u, r | done]|].
    split; [constructor; [by exists a, u, r | done]|].
    destruct Hn as [[-> HOk]|(row' & e & Hrow & Hraise & Hres)]; [by left|].
    right. by exists row', e.
  - exists 0, []. rewrite Hrun. cbn. rewrite app_nil_r, Hout.
    repeat split; auto. right. exists row, e. by rewrite Hrun.
Qed.

(** The authentication requests are the requests to the login host. *)
Lemma directory_call_host (rq : Request) :
  directory_call env rq → host rq = "graph.windows.net".
Proof. by destruct 1. Qed.

Lemma auth_requests_app (l k : list Request) :
  auth_requests (l ++ k) = auth_requests l ++ auth_requests k.
Proof. apply filter_app. Qed.

Lemma auth_requests_directory (new : list Request) :
  Forall (directory_call env) new → auth_requests new = [].
Proof.
  induction 1 as [|rq new Hrq _ IH]; [done|].
  unfold auth_requests in *. rewrite filter_cons_False; [done|].
  by rewrite (directory_call_host rq Hrq).
Qed.

(** A turn sends at most one authentication request, and none when a token
    is cached, which then stays cached. *)
Lemma process_row_auth (row : gmap string PyVal) (w : World) :
  length (auth_requests (wire (process_row env row w).2))
    ≤ S (length (auth_requests (wire w))) ∧
  (truthy (ACCESS_TOKEN w) = true →
   ACCESS_TOKEN (process_row env row w).2 = ACCESS_TOKEN w ∧
   auth_requests (wire (process_row env row w).2) = auth_requests (wire w)).
Proof.
  destruct (process_row_wire row w) as [-> ->].
  destruct (dispatch_shape env row w)
    as (_ & _ & [->|[(Ht & Htok & new & -> & Hnew)|(Ht & new & -> & Hnew & _)]]).
  - split; [lia | done].
  - rewrite auth_requests_app, (auth_requests_directory new Hnew), app_nil_r.
    split; [lia | done].
  - rewrite auth_requests_app. unfold auth_requests at 2.
    rewrite filter_cons_True by done.
    fold (auth_requests new). rewrite (auth_requests_directory new Hnew).
    rewrite length_app. cbn. split; [lia | congruence].
Qed.

(** Everything on the wire is an authentication request or a directory call. *)
Lemma process_row_calls (row : gmap string PyVal) (w : World) :
  ∃ new, wire (process_row env row w).2 = wire w ++ new ∧
         Forall (λ rq, rq = token_request env ∨ directory_call env rq) new.
Proof.
  destruct (process_row_wire row w) as [-> _].
  destruct (dispatch_shape env row w)
    as (_ & _ & [->|[(Ht & Htok & new & -> & Hnew)|(Ht & new & -> & Hnew & _)]]).
  - exists []. by rewrite app_nil_r.
  - exists new. split; [done|]. eapply Forall_impl; [done|]. auto.
  - exists (token_request env :: new). split; [done|].
    constructor; [by left|]. eapply Forall_impl; [done|]. auto.
Qed.

Lemma for_rows_calls (rows : list (gmap string PyVal)) (w : World) :
  ∃ new, wire (for_rows env rows w).2 = wire w ++ new ∧
         Forall (λ rq, rq = token_request env ∨ directory_call env rq) new.
Proof.
  revert w. induction rows as [|row rest IH]; intros w.
  { exists []. cbn. by rewrite app_nil_r. }
  rewrite for_rows_cons.
  destruct (process_row_calls row w) as (new & Hw & Hnew).
  destruct (process_row env row w) as [[[]|e] w1]; cbn in *; [|by eauto].
  destruct (IH w1) as (new' & Hw' & Hnew').
  exists (new ++ new'). rewrite Hw', Hw, app_assoc. split; [done|].
  by apply Forall_app.
Qed.

Lemma for_rows_auth (rows : list (gmap string PyVal)) (w : World) :
  length (auth_requests (wire (for_rows env rows w).2))
    ≤ length (auth_requests (wire w)) + length rows ∧
  (truthy (ACCESS_TOKEN w) = true →
   auth_requests (wire (for_rows env rows w).2) = auth_requests (wire w)).
Proof.
  revert w. induction rows as [|row rest IH]; intros w.
  { cbn. split; [lia | done]. }
  rewrite for_rows_cons.
  destruct (process_row_auth row w) as (Hle & Hcached).
  destruct (process_row env row w) as [[[]|e] w1]; cbn in *.
  - destruct (IH w1) as (Hle' & Hcached'). split; [lia|].
    intros Ht. destruct (Hcached Ht) as [Htok Hsame].
    rewrite Hcached' by congruence. done.
  - split; [lia|]. intros Ht. by destruct (Hcached Ht).
Qed.

(** [main] is the loop started after the header, with its exception dropped. *)
Lemma main_world (rows : list (gmap string PyVal)) (w : World) :
  main env rows w = (Ok (), (for_rows env rows (header_written w)).2).
Proof.
  unfold main, try_except, mbind, M_bind, header_written. cbn.
  by destruct (for_rows env rows _) as [[[]|e] w1].
Qed.

End Loop.

(** ** Validation of the arguments *)

Section Validation.

Variable env : Env.

Lemma request_status (rq : Request) (w : World) (code : Z)
    (data : option (gmap string PyVal)) :
  server env (wire w) rq = Status code data →
  request env rq w =
    (Ok (code, data),
     {| ACCESS_TOKEN := ACCESS_TOKEN w; wire := wire w ++ [rq]; f_out := f_out w |}).
Proof. intros H. unfold request. by rewrite H. Qed.

Lemma first_blank_none (params : gmap string string) (items : list string)
    (w : World) :
  (∀ k, k ∈ items → ∃ v, params !! k = Some v ∧ v ≠ "") →
  first_blank params items w = (Ok None, w).
Proof.
  induction items as [|k items IH]; intros Hall; [done|].
  cbn. rewrite bind_run. unfold getitem.
  destruct (Hall k) as (v & -> & Hv); [by left|]. cbn.
  case_decide; [done|]. apply IH. intros k' Hk'. apply Hall. by right.
Qed.


(** Two dictionaries with blanks at the same keys fail validation alike. *)
Lemma first_blank_agree (params params' : gmap string string)
    (items : list string) (w : World) :
  (∀ k, match params !! k, params' !! k with
        | Some v, Some v' => v = "" ↔ v' = ""
        | None, None => True
        | _, _ => False
        end) →
  first_blank params items w = first_blank params' items w.
Proof.
  intros Hagree. induction items as [|k items IH]; [done|].
  cbn. rewrite !bind_run. unfold getitem. specialize (Hagree k).
  destruct (params !! k) as [v|], (params' !! k) as [v'|]; cbn; try done.
  repeat case_decide; first [done | tauto].
Qed.

Lemma arguments_NoDup (c : Call) : NoDup (arguments c).*1.
Proof. destruct c; cbn; apply (bool_decide_unpack _); by vm_compute. Qed.

Lemma lookup_arguments (c : Call) (k v : string) :
  (list_to_map (arguments c) : gmap string string) !! k = Some v ↔
  (k, v) ∈ arguments c.
Proof. symmetry. apply elem_of_list_to_map, arguments_NoDup. Qed.

Lemma iter_keys_lookup (params : gmap string string) (k : string) :
  iterates_keys env →
  k ∈ iter_keys env (dom params) ↔ is_Some (params !! k).
Proof. intros Hiter. by rewrite (Hiter (dom params)), elem_of_elements, elem_of_dom. Qed.

(** With every argument filled in, the validation loop finds nothing. *)
Lemma arguments_pass (c : Call) (w : World) :
  iterates_keys env →
  Forall (λ kv, kv.2 ≠ "") (arguments c) →
  first_blank (list_to_map (arguments c))
    (iter_keys env (dom (list_to_map (arguments c) : gmap string string))) w
  = (Ok None, w).
Proof.
  intros Hiter Hfilled. apply first_blank_none. intros k Hk.
  apply iter_keys_lookup in Hk as [v Hv]; [|done]. exists v. split; [done|].
  apply lookup_arguments in Hv.
  by apply (proj1 (Forall_forall _ _) Hfilled (k, v)).
Qed.


End Validation.

(** ** The results are ASCII *)

Section Results.

Context {A B : Type} (Q : B → Prop).

Lemma returns_ret (b : B) : Q b → returns_only Q (mret b).
Proof. by intros Hb w b' [= <-]. Qed.

Lemma returns_raise (e : Exn) : returns_only Q (raise e : M B).
Proof. by intros w b. Qed.

Lemma returns_bind (m : M A) (k : A → M B) :
  (∀ a, returns_only Q (k a)) → returns_only Q (m ≫= k).
Proof.
  intros Hk w b. rewrite bind_run.
  destruct (m w) as [[a|e] w1]; [apply Hk | done].
Qed.

Lemma returns_try (m : M B) (h : Exn → M B) :
  returns_only Q m → (∀ e, returns_only Q (h e)) → returns_only Q (try_except m h).
Proof.
  intros Hm Hh w b. unfold try_except. specialize (Hm w).
  destruct (m w) as [[b'|e] w1]; cbn in *; [|apply Hh].
  intros [= <-]. by apply Hm.
Qed.

End Results.

(** Splits a [returns_only] goal along the structure of the program. *)
Ltac results :=
  repeat match goal with
    | |- returns_only _ (mret _) => apply returns_ret; reflexivity
    | |- returns_only _ (raise _) => apply returns_raise
    | |- returns_only _ (try_except _ _) => apply returns_try; [ | intros ? ]
    | |- returns_only _ (_ ≫= _) => apply returns_bind; intros ?
    | |- returns_only _ (if ?c then _ else _) => destruct c
    | |- returns_only _ (match ?x with _ => _ end) => destruct x
    end.

Section AsciiResults.

Variable env : Env.

Lemma first_blank_found (params : gmap string string) (items : list string)
    (k : string) (w w' : World) :
  first_blank params items w = (Ok (Some k), w') → params !! k = Some "".
Proof.
  induction items as [|k0 items IH]; [done|].
  cbn. rewrite bind_run. unfold getitem.
  destruct (params !! k0) as [v|] eqn:Hv; cbn; [|done].
  case_decide as Hblank; [|done]. intros [= <- _]. by rewrite Hv, Hblank.
Qed.

Lemma returns_validated (Q : string → Prop) (params : gmap string string)
    (items : list string) (m : M string) :
  (∀ k, params !! k = Some "" → Q (missing_value k)) →
  returns_only Q m →
  returns_only Q
    (blank ← first_blank params items;
     match blank with
     | Some _item => mret (missing_value _item)
     | None => m
     end).
Proof.
  intros Hblank Hm w r. rewrite bind_run.
  destruct (first_blank params items w) as [[[k|]|e] w1] eqn:Hrun; [| apply Hm | done].
  intros [= <-]. apply Hblank. by apply (first_blank_found _ _ _ _ _ Hrun).
Qed.

Lemma missing_value_ascii (c : Call) (k : string) :
  (list_to_map (arguments c) : gmap string string) !! k = Some "" →
  ascii_text (missing_value k) = true.
Proof.
  intros Hk. apply lookup_arguments in Hk.
  destruct c; cbn in Hk;
    repeat (apply elem_of_cons in Hk as [[= -> _]|Hk]; [reflexivity|]);
    by apply elem_of_nil in Hk.
Qed.

(** Every result of an action is ASCII: the results are literals, and the
    report of a blank argument names a parameter. *)
Lemma invoke_ascii (c : Call) :
  returns_only (λ result, ascii_text result = true) (invoke env c).
Proof.
  destruct c; cbn [invoke].
  - unfold create. cbv zeta.
    apply returns_validated;
      [apply (missing_value_ascii (Create username loginDisabled UDCid givenName
                                     fullName sn ou userPassword))|].
    results.
  - unfold update, update_try. cbv zeta.
    apply returns_validated;
      [apply (missing_value_ascii (Update username newusername loginDisabled
                                     givenName fullName sn ou))|].
    results.
  - unfold delete. cbv zeta. results.
Qed.

Lemma dispatch_ascii (row : gmap string PyVal) :
  returns_only (λ result, ascii_text result = true) (dispatch env row).
Proof.
  unfold dispatch. results.
  - apply (invoke_ascii (Create _ _ _ _ _ _ _ _)).
  - apply (invoke_ascii (Update _ _ _ _ _ _ _)).
  - apply (invoke_ascii (Delete _)).
Qed.

End AsciiResults.

(** * The batch runner *)



(** * The actions *)

Section Claims.

Variable env : Env.

(** C2, on the code: an update that does not rename ([newusername] equal to
    [username]), with all seven arguments filled in, a token cached and the
    user found, sends no patch request.  Building the body reads the local
    [newupn], which only the renaming branch binds; the handler turns the
    exception into an error result, whatever the directory would answer. *)
Theorem update_without_rename_sends_no_patch
    (username loginDisabled givenName fullName sn ou tok : string)
    (data : option (gmap string PyVal)) (w : World) :
  let upn := username +:+ "@" +:+ O365DOMAIN (cfg env) in
  iterates_keys env →
  Forall (λ kv, kv.2 ≠ "")
    (arguments (Update username username loginDisabled givenName fullName sn ou)) →
  ACCESS_TOKEN w = PStr tok → tok ≠ "" →
  server env (wire w) (find_request env upn ("Bearer " +:+ tok)) = Status 200 data →
  update env username username loginDisabled givenName fullName sn ou w =
    (Ok "ERROR: Could not update o365 user.",
     {| ACCESS_TOKEN := ACCESS_TOKEN w;
        wire := wire w ++ [find_request env upn ("Bearer " +:+ tok)];
        f_out := f_out w |}).
Proof.
  intros upn Hiter Hfilled Htok Hne Hfound. unfold update. cbv zeta.
  change ({[ "username" := username; "newusername" := username;
             "loginDisabled" := loginDisabled; "givenName" := givenName;
             "fullName" := fullName; "sn" := sn; "ou" := ou ]} : gmap string string)
    with (list_to_map (arguments (Update username username loginDisabled
                                    givenName fullName sn ou)) : gmap string string).
  rewrite bind_run, (arguments_pass env _ w Hiter Hfilled).
  rewrite bind_run, have_token_cached
    by (rewrite Htok; cbn; by apply bool_decide_eq_true).
  cbn [negb]. rewrite bind_run. cbn [read_token].
  rewrite bind_run, (findUser_run env _ tok w Htok). fold upn. rewrite Hfound.
  cbn. case_decide; [done|].
  unfold update_try, try_except. rewrite Htok. done.
Qed.

(** C3, as the code has it: called with a text token, [findUser] sends one
    lookup and returns [False] exactly when a reply arrives whose status is
    not 200.  It returns [True] on status 200 and also when the lookup
    raises. *)
Theorem findUser_false_iff_other_status (upn tok : string) (w : World) :
  let rq := find_request env upn ("Bearer " +:+ tok) in
  ACCESS_TOKEN w = PStr tok →
  ∃ found,
    findUser env upn w =
      (Ok found, {| ACCESS_TOKEN := ACCESS_TOKEN w; wire := wire w ++ [rq];
                    f_out := f_out w |}) ∧
    (found = false ↔
     ∃ code data, server env (wire w) rq = Status code data ∧ code ≠ 200%Z) ∧
    (found = true ↔
     server env (wire w) rq = Fail ∨
     ∃ data, server env (wire w) rq = Status 200 data).
Proof.
  intros rq Htok. eexists. split; [by apply findUser_run|]. fold rq.
  destruct (server env (wire w) rq) as [code data|].
  - case_bool_decide as Hc; split; split; try done.
    + intros (code' & data' & [= -> ->] & Hne). done.
    + intros _. right. exists data. by rewrite Hc.
    + intros _. by exists code, data.
    + intros [|(data' & [= -> ->])]; done.
  - split; split; try done.
    + intros (code & data & ? & _). done.
    + by left.
Qed.

Lemma have_token_run (w : World) :
  have_token env w =
    (Ok (truthy (ACCESS_TOKEN (have_token env w).2)), (have_token env w).2).
Proof.
  destruct (truthy (ACCESS_TOKEN w)) eqn:Ht.
  - rewrite (have_token_cached env w Ht). cbn. by rewrite Ht.
  - by rewrite (have_token_absent env w Ht).
Qed.

(** C5: a create whose arguments are all filled in, that goes on with the
    text token [tok], finds no user and has its create request answered by
    201, ends with a SUCCESS result whatever the status of the license
    assignment: the full one on 200, the one with the caveat otherwise. *)
Theorem create_license_outcome
    (username loginDisabled UDCid givenName fullName sn ou userPassword tok : string)
    (c0 c2 : Z) (d0 d1 d2 : option (gmap string PyVal)) (w : World) :
  let upn := username +:+ "@" +:+ O365DOMAIN (cfg env) in
  let auth := "Bearer " +:+ tok in
  let w1 := (have_token env w).2 in
  let lookup := find_request env upn auth in
  let creation := create_request env upn auth username UDCid givenName fullName
                    sn ou userPassword in
  let licensing := license_request env upn auth username in
  iterates_keys env →
  Forall (λ kv, kv.2 ≠ "")
    (arguments (Create username loginDisabled UDCid givenName fullName sn ou
                  userPassword)) →
  ACCESS_TOKEN w1 = PStr tok → tok ≠ "" →
  server env (wire w1) lookup = Status c0 d0 → c0 ≠ 200%Z →
  server env (wire w1 ++ [lookup]) creation = Status 201 d1 →
  server env (wire w1 ++ [lookup; creation]) licensing = Status c2 d2 →
  (create env username loginDisabled UDCid givenName fullName sn ou userPassword
     w).1 =
    Ok (if decide (c2 = 200%Z) then "SUCCESS: user was created in o365."
        else "SUCCESS: user added but with no licenses in o365.") ∧
  wire (create env username loginDisabled UDCid givenName fullName sn ou
          userPassword w).2 = wire w1 ++ [lookup; creation; licensing].
Proof.
  intros upn auth w1 lookup creation licensing Hiter Hfilled Htok Hne Hfind Hc0
    Hcreate Hlicense.
  unfold create. cbv zeta.
  change ({[ "username" := username; "loginDisabled" := loginDisabled;
             "UDCid" := UDCid; "givenName" := givenName; "fullName" := fullName;
             "sn" := sn; "ou" := ou; "userPassword" := userPassword ]}
            : gmap string string)
    with (list_to_map (arguments (Create username loginDisabled UDCid givenName
                                    fullName sn ou userPassword))
            : gmap string string).
  rewrite bind_run, (arguments_pass env _ w Hiter Hfilled).
  rewrite bind_run, have_token_run. fold w1. rewrite Htok. cbn [truthy].
  rewrite bool_decide_eq_true_2 by done. cbn [negb].
  rewrite bind_run. cbn [read_token]. rewrite Htok.
  rewrite bind_run, (findUser_run env _ tok w1 Htok).
  fold upn auth lookup. rewrite Hfind, bool_decide_eq_false_2 by done.
  unfold try_except. rewrite bind_run. cbn [str_add mret M_ret].
  fold auth creation licensing.
  rewrite bind_run, (request_status env creation _ 201 d1) by done.
  cbn [fst wire]. rewrite decide_False by (by intros H; apply H).
  rewrite bind_run, (request_status env licensing _ c2 d2)
    by (cbn [wire]; by rewrite <- app_assoc).
  cbn [fst wire]. rewrite <- !app_assoc. by repeat case_decide.
Qed.


(** With its arguments filled in, an action is its token block followed by
    a rest that sends directory calls only. *)
Lemma invoke_gate (c : Call) (w : World) :
  iterates_keys env →
  Forall (λ kv, kv.2 ≠ "") (arguments c) →
  ∃ tail,
    confined (directory_call env) reported tail ∧
    invoke env c w =
      (ready ← have_token env; if negb ready then mret auth_error else tail) w.
Proof.
  intros Hiter Hfilled.
  assert (∀ upn auth, directory_call env (find_request env upn auth)) as Hfind
    by constructor.
  destruct c; cbn [invoke].
  - eexists. split.
    2: { unfold create. cbv zeta.
         change ({[ "username" := username; "loginDisabled" := loginDisabled;
                    "UDCid" := UDCid; "givenName" := givenName;
                    "fullName" := fullName; "sn" := sn; "ou" := ou;
                    "userPassword" := userPassword ]} : gmap string string)
           with (list_to_map (arguments (Create username loginDisabled UDCid
                                           givenName fullName sn ou userPassword))
                   : gmap string string).
         rewrite bind_run, (arguments_pass env _ w Hiter Hfilled). reflexivity. }
    confine; auto using findUser_confined; try (by left); try (by right).
    all: constructor.
  - eexists. split.
    2: { unfold update. cbv zeta.
         change ({[ "username" := username; "newusername" := newusername;
                    "loginDisabled" := loginDisabled; "givenName" := givenName;
                    "fullName" := fullName; "sn" := sn; "ou" := ou ]}
                   : gmap string string)
           with (list_to_map (arguments (Update username newusername
                                           loginDisabled givenName fullName sn ou))
                   : gmap string string).
         rewrite bind_run, (arguments_pass env _ w Hiter Hfilled). reflexivity. }
    unfold update_try.
    confine; auto using findUser_confined; try (by left); try (by right).
    all: constructor.
  - eexists. split.
    2: { unfold delete. apply Forall_cons_1 in Hfilled as [Hname _].
         rewrite decide_False by done. reflexivity. }
    confine; auto using findUser_confined; try (by left); try (by right).
    all: constructor.
Qed.

(** C7: an action whose arguments are filled in and that is invoked while
    no token is cached attempts the acquisition before anything else: the
    authentication request is the first request it sends, and only
    directory calls follow it.  When the token is still absent after that
    request, nothing follows it and the action returns the authentication
    error. *)
Theorem token_before_directory_calls (c : Call) (w : World) :
  iterates_keys env →
  Forall (λ kv, kv.2 ≠ "") (arguments c) →
  truthy (ACCESS_TOKEN w) = false →
  ∃ calls,
    wire (invoke env c w).2 = wire w ++ token_request env :: calls ∧
    Forall (directory_call env) calls ∧
    (truthy (ACCESS_TOKEN (invoke env c w).2) = false →
     calls = [] ∧ (invoke env c w).1 = Ok auth_error).
Proof.
  intros Hiter Hfilled Habsent.
  destruct (invoke_gate c w Hiter Hfilled) as (tail & Htail & ->).
  by apply gate_absent.
Qed.

(** C10: the create request carries [accountEnabled] as the constant
    ["true"], no request sent by [create] carries another value for it, and
    two calls of [create] that differ only in a non-empty [loginDisabled]
    run alike: same result, same requests, same world. *)
Theorem create_ignores_loginDisabled
    (username loginDisabled loginDisabled' UDCid givenName fullName sn ou
       userPassword : string) (w : World) :
  loginDisabled ≠ "" → loginDisabled' ≠ "" →
  create env username loginDisabled UDCid givenName fullName sn ou userPassword w
    = create env username loginDisabled' UDCid givenName fullName sn ou
        userPassword w ∧
  (∀ upn auth,
     body_field "accountEnabled"
       (create_request env upn auth username UDCid givenName fullName sn ou
          userPassword) = Some (JStr "true")) ∧
  ∃ new,
    wire (create env username loginDisabled UDCid givenName fullName sn ou
            userPassword w).2 = wire w ++ new ∧
    Forall (λ rq, ∀ v, body_field "accountEnabled" rq = Some v → v = JStr "true")
      new.
Proof.
  intros Hne Hne'. split; [|split].
  - assert (∀ ld ld' : string, ld ≠ "" → ld' ≠ "" → ∀ k,
        match ({[ "username" := username; "loginDisabled" := ld;
                  "UDCid" := UDCid; "givenName" := givenName;
                  "fullName" := fullName; "sn" := sn; "ou" := ou;
                  "userPassword" := userPassword ]} : gmap string string) !! k,
              ({[ "username" := username; "loginDisabled" := ld';
                  "UDCid" := UDCid; "givenName" := givenName;
                  "fullName" := fullName; "sn" := sn; "ou" := ou;
                  "userPassword" := userPassword ]} : gmap string string) !! k
        with
        | Some v, Some v' => v = "" ↔ v' = ""
        | None, None => True
        | _, _ => False
        end) as Hagree.
    { intros ld ld' Hld Hld' k. destruct (decide (k = "loginDisabled")) as [->|Hk].
      - cbn. done.
      - change ({[ "username" := username; "loginDisabled" := ld';
                   "UDCid" := UDCid; "givenName" := givenName;
                   "fullName" := fullName; "sn" := sn; "ou" := ou;
                   "userPassword" := userPassword ]} : gmap string string)
          with (<["loginDisabled" := ld']>
                  ({[ "username" := username; "loginDisabled" := ld;
                      "UDCid" := UDCid; "givenName" := givenName;
                      "fullName" := fullName; "sn" := sn; "ou" := ou;
                      "userPassword" := userPassword ]} : gmap string string)).
        rewrite (lookup_insert_ne _ "loginDisabled" k) by (by intros <-).
        by case_match. }
    unfold create. cbv zeta. rewrite !(bind_run (first_blank _ _)).
    by rewrite (first_blank_agree _ _ _ w (Hagree loginDisabled loginDisabled' Hne Hne')).
  - done.
  - set (P := λ rq, ∀ v, body_field "accountEnabled" rq = Some v → v = JStr "true").
    assert (action_shape env P
              (create env username loginDisabled UDCid givenName fullName sn ou
                 userPassword)) as Hshape.
    { apply create_shape; intros upn auth v; unfold body_field; cbn;
        repeat case_bool_decide; cbn; congruence. }
    destruct (Hshape w)
      as (_ & _ & [->|[(_ & _ & new & -> & Hnew)|(_ & new & -> & Hnew & _)]]).
    + exists []. by rewrite app_nil_r.
    + by exists new.
    + exists (token_request env :: new). split; [done|].
      constructor; [|done]. intros v. cbn. done.
Qed.

End Claims.

(** * The run as a whole *)

(** C4, as the code has it: a run sends at most one authentication request
    for each input row, and none from a world in which a token is cached.
    While no token comes back, every row that asks for one sends the request
    again. *)
Theorem authentication_requests_bounded (env : Env)
    (rows : list (gmap string PyVal)) (w : World) :
  length (auth_requests (wire (main env rows w).2))
    ≤ length (auth_requests (wire w)) + length rows ∧
  (truthy (ACCESS_TOKEN w) = true →
   auth_requests (wire (main env rows w).2) = auth_requests (wire w)).
Proof.
  rewrite main_world. cbn [snd].
  destruct (for_rows_auth env rows (header_written w)) as [Hle Hcached].
  split; [exact Hle | exact Hcached].
Qed.

(** C8: a PATCH request on the wire of a run carries exactly the principal
    name, the enabled flag, the display fields, the mail nickname and the
    department; the immutable identifier is not among its keys. *)
Theorem patch_body_without_immutable_id (env : Env)
    (rows : list (gmap string PyVal)) (rq : Request) :
  rq ∈ wire (main env rows startup).2 →
  method rq = "PATCH" →
  body_keys rq = ["userPrincipalName"; "accountEnabled"; "givenName";
                  "displayName"; "surname"; "mailNickname"; "department"] ∧
  "immutableId" ∉ body_keys rq.
Proof.
  rewrite main_world. cbn [snd].
  destruct (for_rows_calls env rows (header_written startup)) as (new & -> & Hnew).
  cbn. intros Hrq Hpatch.
  destruct (proj1 (Forall_forall _ _) Hnew rq Hrq) as [->|Hcall]; [done|].
  destruct Hcall; try done. cbn. split; [done|].
  intros Hin. repeat (apply elem_of_cons in Hin as [?|Hin]; [done|]).
  by apply elem_of_nil in Hin.
Qed.

(** C9: every row that a run writes after the header has three cells, the
    third a result that begins with [SUCCESS:] or [ERROR:]. *)
Theorem written_results_are_reported (env : Env)
    (rows : list (gmap string PyVal)) :
  ∃ written,
    f_out (main env rows startup).2 = csv_header :: written ∧
    Forall (λ cells, ∃ action username result,
              cells = [action; username; PStr result] ∧ reported result) written.
Proof.
  destruct (for_rows_output env rows (header_written startup))
    as (n & written & Hout & _ & Hrep & _).
  exists written. rewrite main_world. cbn [snd]. by rewrite Hout.
Qed.

(** * The statements on concrete runs *)

Lemma campus_iterates_keys (srv : list Request → Request → Reply) :
  iterates_keys (campus_env srv).
Proof. intros keys. reflexivity. Defined.

(** C2 at work: alice exists and a token is cached, yet the update that
    leaves her name alone ends in an error after the lookup alone. *)
Lemma update_alice_in_place :
  update healthy "alice" "alice" "False" "Alice" "Alice Adams" "Adams" "Physics"
    signed_in =
    (Ok "ERROR: Could not update o365 user.",
     {| ACCESS_TOKEN := PStr "t0k3n";
        wire := [find_request healthy "alice@campus.edu" "Bearer t0k3n"];
        f_out := [] |}).
Proof.
  apply (update_without_rename_sends_no_patch healthy "alice" "False" "Alice"
           "Alice Adams" "Adams" "Physics" "t0k3n" None signed_in).
  - apply campus_iterates_keys.
  - by repeat constructor.
  - reflexivity.
  - done.
  - reflexivity.
Defined.

(** C3, counterexample: with no connection the lookup raises, and
    [findUser] answers [True], not [False]. *)
Lemma findUser_true_when_lookup_fails :
  server offline (wire signed_in)
    (find_request offline "nobody@campus.edu" "Bearer t0k3n") = Fail ∧
  (findUser offline "nobody@campus.edu" signed_in).1 = Ok true.
Proof. by vm_compute. Qed.

(** C3 at work: a 404 makes [findUser] answer [False]. *)
Lemma findUser_carol_absent :
  (findUser healthy "carol@campus.edu" signed_in).1 = Ok false.
Proof.
  destruct (findUser_false_iff_other_status healthy "carol@campus.edu" "t0k3n"
              signed_in eq_refl) as (found & -> & Hfalse & _).
  cbn. f_equal. apply Hfalse. by exists 404%Z, None.
Defined.

(** C4, counterexample: the login service answers 401 and both rows of the
    run send an authentication request. *)
Lemma two_authentication_requests :
  auth_requests (wire (main locked_out [delete_bob; delete_bob] startup).2)
    = [token_request locked_out; token_request locked_out].
Proof. by vm_compute. Qed.

(** C4 at work: from a world with a token, a run of two rows sends no
    authentication request. *)
Lemma no_authentication_when_signed_in :
  auth_requests (wire (main healthy [delete_bob; create_carol] signed_in).2) = [].
Proof.
  apply (proj2 (authentication_requests_bounded healthy
                  [delete_bob; create_carol] signed_in)).
  reflexivity.
Defined.

(** C5 at work: carol is created, the license assignment is answered by
    403, and the result is the SUCCESS with the caveat. *)
Lemma create_carol_without_license :
  (create no_licenses "carol" "False" "1554943643675475475437" "Carol"
     "Carol Crane" "Crane" "Biology" "initial password" startup).1
    = Ok "SUCCESS: user added but with no licenses in o365.".
Proof.
  apply (create_license_outcome no_licenses "carol" "False"
           "1554943643675475475437" "Carol" "Carol Crane" "Crane" "Biology"
           "initial password" "t0k3n" 404 403 None None None startup).
  - apply campus_iterates_keys.
  - by repeat constructor.
  - reflexivity.
  - done.
  - reflexivity.
  - done.
  - reflexivity.
  - reflexivity.
Defined.


(** C7 at work: the login service answers 401 to the first action of a run. *)
Lemma delete_when_locked_out :
  ∃ calls,
    wire (invoke locked_out (Delete "bob_s") startup).2
      = wire startup ++ token_request locked_out :: calls ∧
    Forall (directory_call locked_out) calls ∧
    (truthy (ACCESS_TOKEN (invoke locked_out (Delete "bob_s") startup).2) = false →
     calls = [] ∧ (invoke locked_out (Delete "bob_s") startup).1 = Ok auth_error).
Proof.
  apply (token_before_directory_calls locked_out (Delete "bob_s") startup).
  - apply campus_iterates_keys.
  - by repeat constructor.
  - reflexivity.
Defined.

(** C8 at work: the request that renames alice. *)
Lemma rename_alice_patch :
  body_keys (patch_request healthy "alice@campus.edu" "Bearer t0k3n"
               "alicia@campus.edu" "False" "Alicia" "Alicia Adams" "Adams"
               "alicia" "Physics")
    = ["userPrincipalName"; "accountEnabled"; "givenName"; "displayName";
       "surname"; "mailNickname"; "department"] ∧
  "immutableId" ∉
    body_keys (patch_request healthy "alice@campus.edu" "Bearer t0k3n"
                 "alicia@campus.edu" "False" "Alicia" "Alicia Adams" "Adams"
                 "alicia" "Physics").
Proof.
  apply (patch_body_without_immutable_id healthy [rename_alice]).
  - assert (wire (main healthy [rename_alice] startup).2 =
            [token_request healthy;
             find_request healthy "alice@campus.edu" "Bearer t0k3n";
             find_request healthy "alicia@campus.edu" "Bearer t0k3n";
             patch_request healthy "alice@campus.edu" "Bearer t0k3n"
               "alicia@campus.edu" "False" "Alicia" "Alicia Adams" "Adams"
               "alicia" "Physics"]) as -> by (by vm_compute).
    do 3 right. by left.
  - reflexivity.
Defined.

(** C10 at work: carol created with the login enabled and disabled. *)
Lemma create_carol_either_way :
  create healthy "carol" "False" "1554943643675475475437" "Carol" "Carol Crane"
    "Crane" "Biology" "initial password" startup
  = create healthy "carol" "True" "1554943643675475475437" "Carol" "Carol Crane"
      "Crane" "Biology" "initial password" startup.
Proof.
  apply (create_ignores_loginDisabled healthy "carol" "False" "True"
           "1554943643675475475437" "Carol" "Carol Crane" "Crane" "Biology"
           "initial password" startup); done.
Defined.

(** ** Whole runs *)

(** A run over five rows against the healthy directory: the token is fetched
    once, carol is created and licensed, alice is renamed, bob is deleted,
    and the update that keeps alice's name fails as C2 says. *)
Example a_run_of_five_rows :
  f_out (main healthy [create_carol; edit_alice; rename_alice; delete_bob;
                       bogus_row] startup).2
    = [csv_header;
       [PStr "create"; PStr "carol"; PStr "SUCCESS: user was created in o365."];
       [PStr "update"; PStr "alice"; PStr "ERROR: Could not update o365 user."];
       [PStr "update"; PStr "alice"; PStr "SUCCESS: user was updated in o365."];
       [PStr "delete"; PStr "bob_s"; PStr "SUCCESS: user deleted in o365."];
       [PStr "bogus"; PStr "x"; PStr "ERROR: Unrecognized action."]] ∧
  (λ rq, (method rq, url rq)) <$>
    wire (main healthy [create_carol; edit_alice; rename_alice; delete_bob;
                        bogus_row] startup).2
    = [("POST", "/campus.edu/oauth2/token?api-version=1.6");
       ("GET", "/campus.edu/users/carol@campus.edu?api-version=1.6");
       ("POST", "/campus.edu/users?api-version=1.6");
       ("POST", "/campus.edu/users/carol@campus.edu/assignLicense?api-version=1.6");
       ("GET", "/campus.edu/users/alice@campus.edu?api-version=1.6");
       ("GET", "/campus.edu/users/alice@campus.edu?api-version=1.6");
       ("GET", "/campus.edu/users/alicia@campus.edu?api-version=1.6");
       ("PATCH", "/campus.edu/users/alice@campus.edu?api-version=1.6");
       ("GET", "/campus.edu/users/bob_s@campus.edu?api-version=1.6");
       ("DELETE", "/campus.edu/users/bob_s@campus.edu?api-version=1.6")].
Proof. by vm_compute. Qed.

(** A login service that grants a number for a token: the token passes the
    test [if not ACCESS_TOKEN], the header of the lookup cannot be built,
    and the [TypeError] ends the run at its first row. *)
Example a_run_with_a_numeric_token :
  f_out (main (campus_env (directory [] 200 (PInt 5) 201 200 204 204))
           [delete_bob; bogus_row] startup).2 = [csv_header].
Proof. by vm_compute. Qed.

(** With the settings file as distributed the student pattern is empty, and
    every user name contains it. *)
Example everyone_is_a_student (env : Env) (username : string) :
  cfg env = o365settings → getUserType env username = "STU".
Proof. intros Hcfg. unfold getUserType. rewrite Hcfg. by destruct username. Qed.

(** Without a network a cached token is of no use, but the run goes on: the
    lookup raises and counts as found, the delete request raises and is
    reported, and the next row is processed. *)
Example a_run_without_network :
  f_out (main offline [delete_bob; bogus_row] signed_in).2
    = [csv_header;
       [PStr "delete"; PStr "bob_s"; PStr "ERROR: Could not delete o365 user."];
       [PStr "bogus"; PStr "x"; PStr "ERROR: Unrecognized action."]].
Proof. by vm_compute. Qed.

(** Text beyond ASCII in a field that is converted ends the run like a
    missing key: [str] raises, nothing is written for the row, and the next
    row is not processed. *)
Example a_run_with_a_name_beyond_ascii :
  process_row healthy delete_jose (header_written startup)
    = (Raise UnicodeEncodeError, header_written startup) ∧
  f_out (main healthy [delete_jose; bogus_row] startup).2 = [csv_header].
Proof. by vm_compute. Qed.

(** What a connection raises is not always reported as an error: a lookup
    that raises counts as found, and the delete that follows succeeds. *)
Example a_lookup_that_raises :
  (delete blind "carol" signed_in).1 = Ok "SUCCESS: user deleted in o365.".
Proof. by vm_compute. Qed.

(** * Further properties of the actions *)

Section Outcomes.

Variable env : Env.

Lemma request_fail (rq : Request) (w : World) :
  server env (wire w) rq = Fail →
  request env rq w =
    (Raise HTTPException,
     {| ACCESS_TOKEN := ACCESS_TOKEN w; wire := wire w ++ [rq]; f_out := f_out w |}).
Proof. intros H. unfold request. by rewrite H. Qed.

(** Past the validation loop, when every argument is filled in. *)
Lemma validation_passed (c : Call) (m : M string) (w : World) :
  iterates_keys env →
  Forall (λ kv, kv.2 ≠ "") (arguments c) →
  (blank ← first_blank (list_to_map (arguments c))
             (iter_keys env (dom (list_to_map (arguments c) : gmap string string)));
   match blank with
   | Some _item => mret (missing_value _item)
   | None => m
   end) w = m w.
Proof. intros Hiter Hfilled. by rewrite bind_run, arguments_pass. Qed.

(** Past the token block, when it leaves a text token. *)
Lemma gate_passed (tail : M string) (w : World) (tok : string) :
  ACCESS_TOKEN (have_token env w).2 = PStr tok → tok ≠ "" →
  (ready ← have_token env; if negb ready then mret auth_error else tail) w
    = tail (have_token env w).2.
Proof.
  intros Htok Hne. rewrite bind_run, have_token_run, Htok. cbn [truthy].
  by rewrite bool_decide_eq_true_2.
Qed.

(** [findUser] answers [True] on status 200 and when the lookup raises. *)
Lemma findUser_found (upn tok : string) (w : World) :
  ACCESS_TOKEN w = PStr tok →
  (server env (wire w) (find_request env upn ("Bearer " +:+ tok)) = Fail ∨
   ∃ data, server env (wire w) (find_request env upn ("Bearer " +:+ tok))
             = Status 200 data) →
  findUser env upn w =
    (Ok true,
     {| ACCESS_TOKEN := ACCESS_TOKEN w;
        wire := wire w ++ [find_request env upn ("Bearer " +:+ tok)];
        f_out := f_out w |}).
Proof.
  intros Htok Hfound. rewrite (findUser_run env upn tok w Htok).
  by destruct Hfound as [->|[data ->]].
Qed.

Lemma findUser_not_found (upn tok : string) (w : World) (code : Z)
    (data : option (gmap string PyVal)) :
  ACCESS_TOKEN w = PStr tok →
  server env (wire w) (find_request env upn ("Bearer " +:+ tok)) = Status code data →
  code ≠ 200%Z →
  findUser env upn w =
    (Ok false,
     {| ACCESS_TOKEN := ACCESS_TOKEN w;
        wire := wire w ++ [find_request env upn ("Bearer " +:+ tok)];
        f_out := f_out w |}).
Proof.
  intros Htok Hreply Hcode. rewrite (findUser_run env upn tok w Htok), Hreply.
  by rewrite bool_decide_eq_false_2.
Qed.

(** X1: [delete] of a user that the lookup finds (status 200, or a lookup that
    raises): one DELETE request follows the lookup, and the result is SUCCESS
    on status 204, an error on any other status, and another error when the
    request raises. *)
Theorem delete_found_outcome (username tok : string) (w : World) :
  let upn := username +:+ "@" +:+ O365DOMAIN (cfg env) in
  let auth := "Bearer " +:+ tok in
  let w1 := (have_token env w).2 in
  let lookup := find_request env upn auth in
  let deletion := delete_request env upn auth in
  username ≠ "" →
  ACCESS_TOKEN w1 = PStr tok → tok ≠ "" →
  (server env (wire w1) lookup = Fail ∨
   ∃ data, server env (wire w1) lookup = Status 200 data) →
  (delete env username w).1 =
    Ok (match server env (wire w1 ++ [lookup]) deletion with
        | Status code _ =>
            if decide (code = 204%Z) then "SUCCESS: user deleted in o365."
            else "ERROR: could not delete user in o365."
        | Fail => "ERROR: Could not delete o365 user."
        end) ∧
  wire (delete env username w).2 = wire w1 ++ [lookup; deletion].
Proof.
  intros upn auth w1 lookup deletion Hname Htok Hne Hfound.
  unfold delete. rewrite decide_False by done.
  rewrite (gate_passed _ w tok Htok Hne). fold w1.
  rewrite bind_run. cbn [read_token]. rewrite Htok. fold upn.
  rewrite bind_run, (findUser_found upn tok w1 Htok Hfound). fold auth lookup.
  cbn [negb]. unfold try_except. rewrite bind_run. cbn [str_add mret M_ret].
  fold auth deletion. rewrite bind_run.
  destruct (server env (wire w1 ++ [lookup]) deletion) as [code data|] eqn:Hreply.
  - rewrite (request_status env deletion _ code data) by done.
    cbn [fst snd wire]. rewrite <- app_assoc. by repeat case_decide.
  - rewrite (request_fail deletion) by done.
    cbn [fst snd wire]. by rewrite <- app_assoc.
Qed.

(** X2: the same [delete] when the lookup is answered by a status other than
    200: the user counts as missing and no DELETE request is sent. *)
Theorem delete_not_found (username tok : string) (w : World) (code : Z)
    (data : option (gmap string PyVal)) :
  let upn := username +:+ "@" +:+ O365DOMAIN (cfg env) in
  let w1 := (have_token env w).2 in
  let lookup := find_request env upn ("Bearer " +:+ tok) in
  username ≠ "" →
  ACCESS_TOKEN w1 = PStr tok → tok ≠ "" →
  server env (wire w1) lookup = Status code data → code ≠ 200%Z →
  (delete env username w).1 = Ok "ERROR: user could not be found in o365!" ∧
  wire (delete env username w).2 = wire w1 ++ [lookup].
Proof.
  intros upn w1 lookup Hname Htok Hne Hreply Hcode.
  unfold delete. rewrite decide_False by done.
  rewrite (gate_passed _ w tok Htok Hne). fold w1.
  rewrite bind_run. cbn [read_token]. fold upn.
  by rewrite bind_run, (findUser_not_found upn tok w1 code data Htok Hreply Hcode).
Qed.

Lemma filled_arguments (c : Call) :
  iterates_keys env →
  Forall (λ kv, kv.2 ≠ "") (arguments c) →
  ∀ k, k ∈ iter_keys env (dom (list_to_map (arguments c) : gmap string string)) →
       ∃ v, (list_to_map (arguments c) : gmap string string) !! k = Some v ∧ v ≠ "".
Proof.
  intros Hiter Hfilled k Hk.
  apply iter_keys_lookup in Hk as [v Hv]; [|done]. exists v. split; [done|].
  apply lookup_arguments in Hv.
  by apply (proj1 (Forall_forall _ _) Hfilled (k, v)).
Qed.

(** X3: [create] when the lookup finds the principal name (status 200, or a
    lookup that raises): the name counts as taken, and neither the create
    request nor the license request is sent. *)
Theorem create_name_taken
    (username loginDisabled UDCid givenName fullName sn ou userPassword tok : string)
    (w : World) :
  let upn := username +:+ "@" +:+ O365DOMAIN (cfg env) in
  let w1 := (have_token env w).2 in
  let lookup := find_request env upn ("Bearer " +:+ tok) in
  iterates_keys env →
  Forall (λ kv, kv.2 ≠ "")
    (arguments (Create username loginDisabled UDCid givenName fullName sn ou
                  userPassword)) →
  ACCESS_TOKEN w1 = PStr tok → tok ≠ "" →
  (server env (wire w1) lookup = Fail ∨
   ∃ data, server env (wire w1) lookup = Status 200 data) →
  (create env username loginDisabled UDCid givenName fullName sn ou userPassword
     w).1 = Ok "ERROR: username already taken!" ∧
  wire (create env username loginDisabled UDCid givenName fullName sn ou
          userPassword w).2 = wire w1 ++ [lookup].
Proof.
  intros upn w1 lookup Hiter Hfilled Htok Hne Hfound.
  unfold create. cbv zeta.
  rewrite bind_run, first_blank_none
    by apply (filled_arguments (Create username loginDisabled UDCid givenName
                                  fullName sn ou userPassword) Hiter Hfilled).
  rewrite (gate_passed _ w tok Htok Hne). fold w1.
  rewrite bind_run. cbn [read_token]. fold upn.
  by rewrite bind_run, (findUser_found upn tok w1 Htok Hfound).
Qed.

(** X4: [create] when the lookup is answered by a status other than 200: the
    create request is sent, and the result follows its reply and, after a
    201, the reply to the license request.  A create request that is not
    answered by 201 is followed by no license request; a license request
    that raises gives the error of a failed creation although the user was
    created. *)
Theorem create_outcome
    (username loginDisabled UDCid givenName fullName sn ou userPassword tok : string)
    (c0 : Z) (d0 : option (gmap string PyVal)) (w : World) :
  let upn := username +:+ "@" +:+ O365DOMAIN (cfg env) in
  let auth := "Bearer " +:+ tok in
  let w1 := (have_token env w).2 in
  let lookup := find_request env upn auth in
  let creation := create_request env upn auth username UDCid givenName fullName
                    sn ou userPassword in
  let licensing := license_request env upn auth username in
  iterates_keys env →
  Forall (λ kv, kv.2 ≠ "")
    (arguments (Create username loginDisabled UDCid givenName fullName sn ou
                  userPassword)) →
  ACCESS_TOKEN w1 = PStr tok → tok ≠ "" →
  server env (wire w1) lookup = Status c0 d0 → c0 ≠ 200%Z →
  match server env (wire w1 ++ [lookup]) creation with
  | Fail =>
      (create env username loginDisabled UDCid givenName fullName sn ou
         userPassword w).1 = Ok "ERROR: could not create o365 user." ∧
      wire (create env username loginDisabled UDCid givenName fullName sn ou
              userPassword w).2 = wire w1 ++ [lookup; creation]
  | Status code _ =>
      if decide (code = 201%Z) then
        (create env username loginDisabled UDCid givenName fullName sn ou
           userPassword w).1 =
          Ok (match server env (wire w1 ++ [lookup; creation]) licensing with
              | Fail => "ERROR: could not create o365 user."
              | Status code' _ =>
                  if decide (code' = 200%Z)
                  then "SUCCESS: user was created in o365."
                  else "SUCCESS: user added but with no licenses in o365."
              end) ∧
        wire (create env username loginDisabled UDCid givenName fullName sn ou
                userPassword w).2 = wire w1 ++ [lookup; creation; licensing]
      else
        (create env username loginDisabled UDCid givenName fullName sn ou
           userPassword w).1 = Ok "ERROR: user could not be created in o365." ∧
        wire (create env username loginDisabled UDCid givenName fullName sn ou
                userPassword w).2 = wire w1 ++ [lookup; creation]
  end.
Proof.
  intros upn auth w1 lookup creation licensing Hiter Hfilled Htok Hne Hreply Hc0.
  unfold create. cbv zeta.
  rewrite bind_run, first_blank_none
    by apply (filled_arguments (Create username loginDisabled UDCid givenName
                                  fullName sn ou userPassword) Hiter Hfilled).
  rewrite (gate_passed _ w tok Htok Hne). fold w1.
  rewrite bind_run. cbn [read_token]. rewrite Htok. fold upn.
  rewrite bind_run, (findUser_not_found upn tok w1 c0 d0 Htok Hreply Hc0).
  fold auth lookup. unfold try_except. rewrite bind_run.
  cbn [str_add mret M_ret]. fold auth creation licensing. rewrite bind_run.
  destruct (server env (wire w1 ++ [lookup]) creation) as [code d1|] eqn:Hcreate.
  - rewrite (request_status env creation _ code d1) by done. cbn [fst snd wire].
    rewrite <- app_assoc. cbn [app].
    destruct (decide (code = 201%Z)) as [->|Hcode].
    + rewrite decide_False by (by intros H; apply H). rewrite bind_run.
      destruct (server env (wire w1 ++ [lookup; creation]) licensing)
        as [code' d2|] eqn:Hlicense.
      * rewrite (request_status env licensing _ code' d2) by done.
        cbn [fst snd wire]. rewrite <- app_assoc. by repeat case_decide.
      * rewrite (request_fail licensing) by done.
        cbn [fst snd wire]. by rewrite <- app_assoc.
    + by rewrite decide_True.
  - rewrite (request_fail creation) by done. cbn [fst snd wire].
    by rewrite <- app_assoc.
Qed.

(** X5: [update] when the lookup of the present name is answered by a status
    other than 200: the user counts as missing, and nothing follows the
    lookup. *)
Theorem update_not_found
    (username newusername loginDisabled givenName fullName sn ou tok : string)
    (code : Z) (data : option (gmap string PyVal)) (w : World) :
  let upn := username +:+ "@" +:+ O365DOMAIN (cfg env) in
  let w1 := (have_token env w).2 in
  let lookup := find_request env upn ("Bearer " +:+ tok) in
  iterates_keys env →
  Forall (λ kv, kv.2 ≠ "")
    (arguments (Update username newusername loginDisabled givenName fullName sn
                  ou)) →
  ACCESS_TOKEN w1 = PStr tok → tok ≠ "" →
  server env (wire w1) lookup = Status code data → code ≠ 200%Z →
  (update env username newusername loginDisabled givenName fullName sn ou w).1
    = Ok "ERROR: user could not be found in o365!" ∧
  wire (update env username newusername loginDisabled givenName fullName sn ou
          w).2 = wire w1 ++ [lookup].
Proof.
  intros upn w1 lookup Hiter Hfilled Htok Hne Hreply Hcode.
  unfold update. cbv zeta.
  rewrite bind_run, first_blank_none
    by apply (filled_arguments (Update username newusername loginDisabled
                                  givenName fullName sn ou) Hiter Hfilled).
  rewrite (gate_passed _ w tok Htok Hne). fold w1.
  rewrite bind_run. cbn [read_token]. fold upn.
  by rewrite bind_run, (findUser_not_found upn tok w1 code data Htok Hreply Hcode).
Qed.

(** X6: a renaming [update] of a user that is found: the new principal name is
    looked up next.  When that lookup finds it (status 200, or a lookup that
    raises) the name counts as taken and no PATCH request is sent. *)
Theorem update_new_name_taken
    (username newusername loginDisabled givenName fullName sn ou tok : string)
    (w : World) :
  let upn := username +:+ "@" +:+ O365DOMAIN (cfg env) in
  let newupn := newusername +:+ "@" +:+ O365DOMAIN (cfg env) in
  let auth := "Bearer " +:+ tok in
  let w1 := (have_token env w).2 in
  let lookup := find_request env upn auth in
  let lookup' := find_request env newupn auth in
  iterates_keys env →
  Forall (λ kv, kv.2 ≠ "")
    (arguments (Update username newusername loginDisabled givenName fullName sn
                  ou)) →
  username ≠ newusername →
  ACCESS_TOKEN w1 = PStr tok → tok ≠ "" →
  (server env (wire w1) lookup = Fail ∨
   ∃ data, server env (wire w1) lookup = Status 200 data) →
  (server env (wire w1 ++ [lookup]) lookup' = Fail ∨
   ∃ data, server env (wire w1 ++ [lookup]) lookup' = Status 200 data) →
  (update env username newusername loginDisabled givenName fullName sn ou w).1
    = Ok "ERROR: username already taken!" ∧
  wire (update env username newusername loginDisabled givenName fullName sn ou
          w).2 = wire w1 ++ [lookup; lookup'].
Proof.
  intros upn newupn auth w1 lookup lookup' Hiter Hfilled Hrename Htok Hne
    Hfound Htaken.
  unfold update. cbv zeta.
  rewrite bind_run, first_blank_none
    by apply (filled_arguments (Update username newusername loginDisabled
                                  givenName fullName sn ou) Hiter Hfilled).
  rewrite (gate_passed _ w tok Htok Hne). fold w1.
  rewrite bind_run. cbn [read_token]. fold upn newupn.
  rewrite bind_run, (findUser_found upn tok w1 Htok Hfound). fold auth lookup.
  cbn [negb]. rewrite decide_True by done.
  rewrite bind_run,
    (findUser_found newupn tok (mkWorld (ACCESS_TOKEN w1) (wire w1 ++ [lookup]) (f_out w1)) Htok Htaken).
  fold auth lookup'.
  cbn [fst snd wire]. by rewrite <- app_assoc.
Qed.

(** X7: a renaming [update] of a user that is found, to a name whose lookup is
    answered by a status other than 200: one PATCH request is sent to the
    present principal name.  It carries the new name and [accountEnabled]
    as ["False"] when [loginDisabled] is the text ["True"] and as ["True"]
    for every other text; the result is SUCCESS on status 204, an error on
    any other status, and another error when the request raises. *)
Theorem update_rename_outcome
    (username newusername loginDisabled givenName fullName sn ou tok : string)
    (code : Z) (data : option (gmap string PyVal)) (w : World) :
  let upn := username +:+ "@" +:+ O365DOMAIN (cfg env) in
  let newupn := newusername +:+ "@" +:+ O365DOMAIN (cfg env) in
  let auth := "Bearer " +:+ tok in
  let w1 := (have_token env w).2 in
  let lookup := find_request env upn auth in
  let lookup' := find_request env newupn auth in
  let patch :=
    patch_request env upn auth newupn
      (if decide (loginDisabled = "True") then "False" else "True")
      givenName fullName sn newusername ou in
  iterates_keys env →
  Forall (λ kv, kv.2 ≠ "")
    (arguments (Update username newusername loginDisabled givenName fullName sn
                  ou)) →
  username ≠ newusername →
  ACCESS_TOKEN w1 = PStr tok → tok ≠ "" →
  (server env (wire w1) lookup = Fail ∨
   ∃ data, server env (wire w1) lookup = Status 200 data) →
  server env (wire w1 ++ [lookup]) lookup' = Status code data → code ≠ 200%Z →
  (update env username newusername loginDisabled givenName fullName sn ou w).1 =
    Ok (match server env (wire w1 ++ [lookup; lookup']) patch with
        | Status code' _ =>
            if decide (code' = 204%Z) then "SUCCESS: user was updated in o365."
            else "ERROR: could not update user in o365."
        | Fail => "ERROR: Could not update o365 user."
        end) ∧
  wire (update env username newusername loginDisabled givenName fullName sn ou
          w).2 = wire w1 ++ [lookup; lookup'; patch].
Proof.
  intros upn newupn auth w1 lookup lookup' patch Hiter Hfilled Hrename Htok Hne
    Hfound Hreply Hcode.
  unfold update. cbv zeta.
  rewrite bind_run, first_blank_none
    by apply (filled_arguments (Update username newusername loginDisabled
                                  givenName fullName sn ou) Hiter Hfilled).
  rewrite (gate_passed _ w tok Htok Hne). fold w1.
  rewrite bind_run. cbn [read_token]. rewrite Htok. fold upn newupn.
  rewrite bind_run, (findUser_found upn tok w1 Htok Hfound). fold auth lookup.
  cbn [negb]. rewrite decide_True by done.
  rewrite bind_run,
    (findUser_not_found newupn tok (mkWorld (ACCESS_TOKEN w1) (wire w1 ++ [lookup]) (f_out w1)) code data Htok Hreply Hcode).
  fold auth lookup'. unfold update_try, try_except. rewrite bind_run.
  cbn [str_add mret M_ret local]. fold auth. rewrite bind_run. cbn [mret M_ret].
  fold patch. rewrite bind_run. cbn [wire]. rewrite <- app_assoc. cbn [app].
  destruct (server env (wire w1 ++ [lookup; lookup']) patch)
    as [code' d|] eqn:Hpatch.
  - rewrite (request_status env patch _ code' d) by done.
    cbn [fst snd wire]. rewrite <- app_assoc. by repeat case_decide.
  - rewrite (request_fail patch) by done.
    cbn [fst snd wire]. by rewrite <- app_assoc.
Qed.

End Outcomes.

(** * Further properties of the helpers *)

Section Helpers.

Variable env : Env.

(** [graphConnect] as one equation on the world. *)
Lemma graphConnect_equation (w : World) :
  graphConnect env w =
    (Ok (),
     {| ACCESS_TOKEN :=
          match server env (wire w) (token_request env) with
          | Status code (Some data) =>
              if decide (code = 200%Z)
              then default (ACCESS_TOKEN w) (data !! "access_token")
              else ACCESS_TOKEN w
          | _ => ACCESS_TOKEN w
          end;
        wire := wire w ++ [token_request env];
        f_out := f_out w |}).
Proof.
  unfold graphConnect, try_except, request, getitem, write_token.
  rewrite bind_run.
  destruct (server env (wire w) (token_request env)) as [code [data|]|];
    cbn; try case_decide; cbn; try done.
  rewrite bind_run. cbn. rewrite bind_run.
  by destruct (data !! "access_token") as [tok|].
Qed.

(** X8: [graphConnect] never raises, sends exactly the token request and
    writes nothing.  A reply with status 200 and a body with an
    [access_token] makes that value the cached token, whatever it is; and
    the cached token changes in no other case: not on another status, not
    on a body without the field, not when the connection raises. *)
Theorem graphConnect_contract (w : World) :
  let w' := (graphConnect env w).2 in
  (graphConnect env w).1 = Ok () ∧
  wire w' = wire w ++ [token_request env] ∧
  f_out w' = f_out w ∧
  (∀ data tok,
     server env (wire w) (token_request env) = Status 200 (Some data) →
     data !! "access_token" = Some tok →
     ACCESS_TOKEN w' = tok) ∧
  (ACCESS_TOKEN w' ≠ ACCESS_TOKEN w →
   ∃ data,
     server env (wire w) (token_request env) = Status 200 (Some data) ∧
     data !! "access_token" = Some (ACCESS_TOKEN w')).
Proof.
  cbv zeta. rewrite graphConnect_equation. cbn [fst snd wire f_out ACCESS_TOKEN].
  repeat split.
  - intros data tok -> Htok. rewrite decide_True by done. by rewrite Htok.
  - destruct (server env (wire w) (token_request env)) as [code [data|]|];
      try done.
    case_decide as Hcode; [subst code|done].
    destruct (data !! "access_token") as [tok|] eqn:Htok; [|done].
    intros _. by exists data.
Qed.

Lemma pretty_N_go_length (x : N) (s : string) :
  String.length s ≤ String.length (pretty_N_go x s).
Proof.
  revert s. induction (N.lt_wf_0 x) as [x _ IH]; intros s.
  destruct (decide (x = 0%N)) as [->|Hx]; [by rewrite pretty_N_go_0|].
  rewrite pretty_N_go_step by lia.
  etrans; [|apply IH; apply N.div_lt; lia]. cbn. lia.
Qed.

Lemma pretty_Z_not_blank (z : Z) : pretty z ≠ "".
Proof.
  assert (∀ p : positive, pretty (N.pos p) ≠ "") as Hpos.
  { intros p Hp. unfold pretty, pretty_N in Hp.
    rewrite decide_False in Hp by done.
    rewrite pretty_N_go_step in Hp by lia.
    pose proof (pretty_N_go_length (N.pos p `div` 10)
                  (String (pretty_N_char (N.pos p `mod` 10)) "")) as Hlen.
    rewrite Hp in Hlen. cbn in Hlen. lia. }
  destruct z as [|p|p]; [done | apply Hpos | done].
Qed.

(** Only the empty text converts to the empty string: [str] of [None], of a
    boolean or of a number is never blank, so the validation loops report no
    missing value for a field that holds one of these. *)
Lemma text_of_blank_iff (v : PyVal) : text_of v = "" ↔ v = PStr "".
Proof.
  split; [|by intros ->].
  destruct v as [|[]|z|s]; cbn; try done.
  - intros Hz. by destruct (pretty_Z_not_blank z).
  - by intros ->.
Qed.

Lemma prefix_app (pat s : string) :
  String.prefix pat s = true ↔ ∃ post, s = pat +:+ post.
Proof.
  revert s. induction pat as [|a pat IH]; intros s; cbn.
  - destruct s; split; eauto.
  - destruct s as [|b s]; [split; [done | by intros [post ?]]|].
    cbn. destruct (Ascii.ascii_dec a b) as [->|Hab].
    + rewrite IH. split; intros [post Hpost]; exists post.
      * by rewrite Hpost.
      * by injection Hpost.
    + split; [done|]. intros [post [= ? _]]. done.
Qed.

Lemma str_contains_unfold (pat s : string) :
  str_contains pat s =
    if String.prefix pat s then true
    else match s with
         | EmptyString => false
         | String _ s' => str_contains pat s'
         end.
Proof. by destruct s. Qed.

Lemma str_contains_app (pat s : string) :
  str_contains pat s = true ↔ ∃ pre post, s = pre +:+ pat +:+ post.
Proof.
  induction s as [|a s IH]; rewrite str_contains_unfold.
  - destruct (String.prefix pat "") eqn:Hp.
    + split; [|done]. intros _. apply prefix_app in Hp as [post Hpost].
      by exists "", post.
    + split; [done|]. intros ([|b pre] & post & Hs); [|done].
      assert (String.prefix pat "" = true) as Hp'
        by (apply prefix_app; by exists post).
      congruence.
  - destruct (String.prefix pat (String a s)) eqn:Hp.
    + split; [|done]. intros _. apply prefix_app in Hp as [post Hpost].
      by exists "", post.
    + rewrite IH. split.
      * intros (pre & post & ->). by exists (String a pre), post.
      * intros ([|b pre] & post & Hs).
        -- assert (String.prefix pat (String a s) = true) as Hp'
             by (apply prefix_app; by exists post).
           congruence.
        -- injection Hs as -> ->. by exists pre, post.
Qed.

(** X9: a user is a student exactly when the student pattern occurs somewhere
    in the user name, and an employee otherwise; with an empty pattern every
    user is a student. *)
Theorem getUserType_student_iff (username : string) :
  (getUserType env username = "STU" ↔
   ∃ pre post, username = pre +:+ STUPATTERN (cfg env) +:+ post) ∧
  (getUserType env username = "STU" ∨ getUserType env username = "EMP") ∧
  (STUPATTERN (cfg env) = "" → getUserType env username = "STU").
Proof.
  unfold getUserType. rewrite <- str_contains_app.
  destruct (str_contains (STUPATTERN (cfg env)) username) eqn:Hc.
  - repeat split; auto.
  - repeat split; auto; try done.
    intros Hempty. rewrite Hempty in Hc. by destruct username.
Qed.

End Helpers.

(** * Further properties of a turn of the loop *)

Section Turns.

Variable env : Env.

(** Past the token block, when it leaves a token that passes for true. *)
Lemma gate_open (tail : M string) (w : World) :
  truthy (ACCESS_TOKEN (have_token env w).2) = true →
  (ready ← have_token env; if negb ready then mret auth_error else tail) w
    = tail (have_token env w).2.
Proof. intros Ht. by rewrite bind_run, have_token_run, Ht. Qed.

(** X10: a token that passes for true without being text, such as a number
    granted by the login service, stops every action whose arguments are
    filled in: building the Authorization header of the lookup raises
    [TypeError] outside any handler, and no directory call is sent. *)
Theorem non_text_token_raises (c : Call) (w : World) :
  let w1 := (have_token env w).2 in
  iterates_keys env →
  Forall (λ kv, kv.2 ≠ "") (arguments c) →
  truthy (ACCESS_TOKEN w1) = true →
  (∀ s, ACCESS_TOKEN w1 ≠ PStr s) →
  invoke env c w = (Raise TypeError, w1).
Proof.
  intros w1 Hiter Hfilled Ht Hnum. destruct c; cbn [invoke].
  - unfold create. cbv zeta.
    rewrite bind_run, first_blank_none
      by apply (filled_arguments env (Create username loginDisabled UDCid
                                        givenName fullName sn ou userPassword)
                  Hiter Hfilled).
    rewrite (gate_open _ w Ht). fold w1. rewrite bind_run. cbn [read_token].
    by rewrite bind_run, (findUser_raises env _ w1 Hnum).
  - unfold update. cbv zeta.
    rewrite bind_run, first_blank_none
      by apply (filled_arguments env (Update username newusername loginDisabled
                                        givenName fullName sn ou) Hiter Hfilled).
    rewrite (gate_open _ w Ht). fold w1. rewrite bind_run. cbn [read_token].
    by rewrite bind_run, (findUser_raises env _ w1 Hnum).
  - unfold delete. apply Forall_cons_1 in Hfilled as [Hname _].
    rewrite decide_False by done.
    rewrite (gate_open _ w Ht). fold w1. rewrite bind_run. cbn [read_token].
    by rewrite bind_run, (findUser_raises env _ w1 Hnum).
Qed.

(** X11: a row whose action is none of the texts [create], [update] and
    [delete] (another text, the same word in capitals, a number) is answered
    with the unrecognized-action error when its action and its username
    convert to [str], that is, when neither is text beyond ASCII; nothing
    is sent for it and the token is left alone.  When one of the two is text
    beyond ASCII the turn raises [UnicodeEncodeError], while the action is
    formatted for the console or the username is written, and no row is
    written.  Only [action] and [username] are read. *)
Theorem unrecognized_action_row (row : gmap string PyVal)
    (action username : PyVal) (w : World) :
  row !! "action" = Some action →
  row !! "username" = Some username →
  action ∉ [PStr "create"; PStr "update"; PStr "delete"] →
  process_row env row w =
    if encodable action && encodable username then
      (Ok (),
       {| ACCESS_TOKEN := ACCESS_TOKEN w; wire := wire w;
          f_out := f_out w ++ [[action; username;
                                PStr "ERROR: Unrecognized action."]] |})
    else (Raise UnicodeEncodeError, w).
Proof.
  intros Haction Husername Hother.
  unfold process_row, dispatch. rewrite !bind_run. unfold getitem at 1.
  rewrite Haction. cbn [mret M_ret].
  rewrite !decide_False by (intros ->; apply Hother; set_solver).
  unfold format, str. rewrite !bind_run.
  destruct (encodable action) eqn:Hact; [|done].
  unfold getitem, writerow, mbind, M_bind, mret, M_ret.
  rewrite Haction, Husername. cbn [forallb]. rewrite Hact.
  by destruct (encodable username).
Qed.

(** X12: a row that lacks a key which [main] reads for its action makes the
    turn raise before the action is called: nothing is sent, nothing is
    written, and a blank field of the same row is not reported.  The
    exception is [KeyError] for a key the row lacks, unless a field read
    before that key is text beyond ASCII, on which [str] raises
    [UnicodeEncodeError] first; for a row whose texts are ASCII it is the
    [KeyError]. *)
Theorem missing_field_raises (row : gmap string PyVal) (action : PyVal)
    (w : World) :
  row !! "action" = Some action →
  Exists (λ k, row !! k = None) (fields_read action) →
  ∃ e, dispatch env row w = (Raise e, w) ∧
       process_row env row w = (Raise e, w) ∧
       (e = UnicodeEncodeError ∨
        ∃ k, k ∈ fields_read action ∧ row !! k = None ∧ e = KeyError k) ∧
       (ascii_row row →
        ∃ k, k ∈ fields_read action ∧ row !! k = None ∧ e = KeyError k).
Proof.
  intros Haction Hmissing.
  assert (∀ k (f : PyVal → M string),
            (getitem row k ≫= f) w =
              match row !! k with
              | Some v => f v w
              | None => (Raise (KeyError k), w)
              end) as Hread.
  { intros k f. rewrite bind_run. unfold getitem. by destruct (row !! k). }
  assert (∀ k (f : string → M string),
            (field row k ≫= f) w =
              match row !! k with
              | Some v => if encodable v then f (text_of v) w
                          else (Raise UnicodeEncodeError, w)
              | None => (Raise (KeyError k), w)
              end) as Hfield.
  { intros k f. rewrite bind_run. unfold field, getitem, str. rewrite bind_run.
    destruct (row !! k) as [v|]; [|done]. cbn [mret M_ret].
    by destruct (encodable v). }
  assert (∀ e, dispatch env row w = (Raise e, w) →
               process_row env row w = (Raise e, w)) as Hturn.
  { intros e He. unfold process_row. by rewrite bind_run, He. }
  set (goal := ∃ e, dispatch env row w = (Raise e, w) ∧ _).
  assert (∀ k, k ∈ fields_read action → row !! k = None →
               dispatch env row w = (Raise (KeyError k), w) → goal) as Hkey.
  { intros k Hin Hnone Hk. exists (KeyError k). repeat split; eauto. }
  assert (∀ k v, row !! k = Some v → encodable v = false →
                 dispatch env row w = (Raise UnicodeEncodeError, w) → goal)
    as Hcodec.
  { intros k v Hv Henc Hk. exists UnicodeEncodeError.
    repeat split; eauto. intros Hascii. specialize (Hascii k v Hv).
    cbn in Hascii. congruence. }
  clearbody goal. unfold fields_read in *.
  assert (∀ P : Prop, P → P) as Hrun by done.
  repeat case_decide; subst;
    repeat lazymatch type of Hmissing with
      | Exists _ (?k :: _) =>
          let v := fresh "v" in
          let Hv := fresh "Hv" in
          let He := fresh "He" in
          apply Exists_cons in Hmissing;
          destruct (row !! k) as [v|] eqn:Hv;
          [ destruct Hmissing as [?|Hmissing]; [done|];
            destruct (encodable v) eqn:He;
            [ | apply (Hcodec k v Hv He) ]
          | apply (Hkey k);
              [ solve [repeat first [ by apply elem_of_cons; left
                                    | apply elem_of_cons; right ]]
              | done |] ];
          try (unfold dispatch; rewrite Hread, Haction;
               repeat first [ rewrite decide_True by done
                            | rewrite decide_False by done ];
               by repeat match goal with
                    | H : row !! ?k' = _ |- context [field row ?k' ≫= _] =>
                        rewrite Hfield, H
                    | H : encodable ?v' = _
                      |- context [if encodable ?v' then _ else _] => rewrite H
                    end)
      end.
  all: by apply Exists_nil in Hmissing.
Qed.

End Turns.

(** * Further properties of a run *)

Section Runs.

Variable env : Env.

Lemma for_rows_token (rows : list (gmap string PyVal)) (w : World) :
  truthy (ACCESS_TOKEN w) = true →
  ACCESS_TOKEN (for_rows env rows w).2 = ACCESS_TOKEN w.
Proof.
  revert w. induction rows as [|row rest IH]; intros w Ht; [done|].
  rewrite for_rows_cons.
  destruct (process_row_auth env row w) as (_ & Hcached).
  destruct (Hcached Ht) as [Htok _].
  destruct (process_row env row w) as [[[]|e] w1]; cbn in *; [|done].
  rewrite IH by congruence. done.
Qed.

(** X14: a token that is cached when a run starts is the token when it ends:
    the script never refreshes, replaces or clears it, whatever the
    directory answers to the calls made with it. *)
Theorem cached_token_is_kept (rows : list (gmap string PyVal)) (w : World) :
  truthy (ACCESS_TOKEN w) = true →
  ACCESS_TOKEN (main env rows w).2 = ACCESS_TOKEN w.
Proof.
  intros Ht. rewrite main_world. cbn [snd].
  by rewrite for_rows_token.
Qed.

Lemma str_app_assoc (s t u : string) : (s +:+ t) +:+ u = s +:+ (t +:+ u).
Proof. induction s as [|a s IH]; [done|]. exact (f_equal (String a) IH). Qed.

(** X15: every request of a run goes to the login host or to the directory
    host, to a path below the configured domain, with the api-version query;
    every directory call carries an Authorization header. *)
Theorem requests_are_scoped (rows : list (gmap string PyVal)) (rq : Request) :
  rq ∈ wire (main env rows startup).2 →
  (∃ path, below_domain env path rq) ∧
  (host rq = "login.windows.net" ∧ rq = token_request env ∨
   host rq = "graph.windows.net" ∧ ∃ auth, ("Authorization", auth) ∈ headers rq).
Proof.
  rewrite main_world. cbn [snd].
  destruct (for_rows_calls env rows (header_written startup)) as (new & -> & Hnew).
  cbn. intros Hrq.
  destruct (proj1 (Forall_forall _ _) Hnew rq Hrq) as [->|Hcall].
  { split; [by exists "/oauth2/token" | by left]. }
  split.
  - unfold below_domain. destruct Hcall; cbn.
    + by exists ("/users/" +:+ upn).
    + by exists "/users".
    + exists ("/users/" +:+ upn +:+ "/assignLicense").
      by rewrite !str_app_assoc.
    + by exists ("/users/" +:+ upn).
    + by exists ("/users/" +:+ upn).
  - right. destruct Hcall; cbn; (split; [done|]); exists auth; by left.
Qed.

End Runs.

(** ** Runs that reach the end of the input *)

Section Steady.

Context {A B : Type}.

Lemma steady_ret (a : A) : steady (mret a).
Proof. intros w s _. cbn. eauto. Qed.

Lemma steady_bind (m : M A) (k : A → M B) :
  steady m → (∀ a, steady (k a)) → steady (m ≫= k).
Proof.
  intros Hm Hk w s Hs. rewrite bind_run.
  destruct (Hm w s Hs) as [[a Ha] Htok].
  destruct (m w) as [r w1]; cbn in *. subst r.
  destruct (Hk a w1 s) as [Hret Htok']; [congruence|].
  split; [done | congruence].
Qed.

(** A [try] whose body leaves the token alone and whose handler is steady. *)
Lemma steady_try (m : M A) (h : Exn → M A) :
  confined (λ _, True) (λ _, True) m → (∀ e, steady (h e)) →
  steady (try_except m h).
Proof.
  intros Hm Hh w s Hs. unfold try_except.
  destruct (Hm w) as (Htok & _).
  destruct (m w) as [[a|e] w1]; cbn in *; [eauto|].
  destruct (Hh e w1 s) as [Hret Htok']; [congruence|].
  split; [done | congruence].
Qed.

End Steady.

Section Complete.

Variable env : Env.

Lemma findUser_steady (upn : string) : steady (findUser env upn).
Proof. intros w s Hs. rewrite (findUser_run env upn s w Hs). cbn. eauto. Qed.

Lemma read_token_steady : steady read_token.
Proof. intros w s _. cbn. eauto. Qed.

(** Splits a [steady] goal along the structure of the program. *)
Ltac steadily :=
  repeat match goal with
    | |- steady (mret _) => apply steady_ret
    | |- steady read_token => apply read_token_steady
    | |- steady (findUser _ _) => apply findUser_steady
    | |- steady (try_except _ _) =>
        apply steady_try; [confine; done | intros ?]
    | |- steady (_ ≫= _) => apply steady_bind; [ | intros ? ]
    | |- steady (if ?c then _ else _) => destruct c
    | |- steady (match ?x with _ => _ end) => destruct x
    end.

Lemma graphConnect_usable (w : World) :
  grants_text env → token_usable w → token_usable (graphConnect env w).2.
Proof.
  intros Hgrants Hw. rewrite graphConnect_equation. unfold token_usable. cbn.
  destruct (server env (wire w) (token_request env)) as [code [data|]|] eqn:Hreply;
    try done.
  case_decide as Hcode; [subst code|done].
  destruct (data !! "access_token") as [tok|] eqn:Htok; [|done]. cbn.
  by apply (Hgrants (wire w) data tok).
Qed.

(** Behind the token block a steady rest returns, and the token stays
    usable. *)
Lemma gated_returns (tail : M string) (w : World) :
  grants_text env → token_usable w → steady tail →
  (∃ result,
     (ready ← have_token env; if negb ready then mret auth_error else tail) w
       = (Ok result,
          ((ready ← have_token env;
            if negb ready then mret auth_error else tail) w).2)) ∧
  token_usable
    ((ready ← have_token env; if negb ready then mret auth_error else tail) w).2.
Proof.
  intros Hgrants Hw Htail. rewrite bind_run, have_token_run.
  assert (token_usable (have_token env w).2) as Hw1.
  { destruct (truthy (ACCESS_TOKEN w)) eqn:Ht.
    - by rewrite (have_token_cached env w Ht).
    - rewrite (have_token_absent env w Ht). by apply graphConnect_usable. }
  destruct (truthy (ACCESS_TOKEN (have_token env w).2)) eqn:Ht1; cbn [negb].
  - destruct (Hw1 Ht1) as [s Hs].
    destruct (Htail (have_token env w).2 s Hs) as [[result Hres] Htok].
    destruct (tail (have_token env w).2) as [r w2]; cbn in *. subst r.
    split; [by exists result|]. unfold token_usable. by rewrite Htok.
  - split; [by eexists | done].
Qed.

Lemma first_blank_returns (params : gmap string string) (w : World) :
  iterates_keys env →
  ∃ blank, first_blank params (iter_keys env (dom params)) w = (Ok blank, w).
Proof.
  intros Hiter.
  assert (∀ items, (∀ k, k ∈ items → is_Some (params !! k)) →
            ∃ blank, first_blank params items w = (Ok blank, w)) as Hgen.
  { induction items as [|k items IH]; intros Hall; [by eexists|].
    cbn. rewrite bind_run. unfold getitem.
    destruct (Hall k) as [v ->]; [by left|]. cbn.
    case_decide; [by eexists|]. apply IH. intros k' Hk'. apply Hall. by right. }
  apply Hgen. intros k. by rewrite iter_keys_lookup.
Qed.

(** With tokens that are text, an action returns a result whatever its
    arguments and whatever the directory answers. *)
Lemma invoke_returns (c : Call) (w : World) :
  iterates_keys env → grants_text env → token_usable w →
  (∃ result, (invoke env c w).1 = Ok result) ∧ token_usable (invoke env c w).2.
Proof.
  intros Hiter Hgrants Hw.
  assert (∀ (params : gmap string string) (rest : M string),
            steady rest →
            (∃ result,
               ((blank ← first_blank params (iter_keys env (dom params));
                 match blank with
                 | Some _item => mret (missing_value _item)
                 | None =>
                     ready ← have_token env;
                     if negb ready then mret auth_error else rest
                 end) w).1 = Ok result) ∧
            token_usable
              ((blank ← first_blank params (iter_keys env (dom params));
                match blank with
                | Some _item => mret (missing_value _item)
                | None =>
                    ready ← have_token env;
                    if negb ready then mret auth_error else rest
                end) w).2) as Hvalidated.
  { intros params rest Hrest. rewrite bind_run.
    destruct (first_blank_returns params w Hiter) as [[k|] ->].
    - split; [by eexists | done].
    - destruct (gated_returns rest w Hgrants Hw Hrest) as [[result ->] Hw'].
      split; [by eexists | done]. }
  destruct c; cbn [invoke].
  - unfold create. cbv zeta. apply Hvalidated. steadily.
  - unfold update, update_try. cbv zeta. apply Hvalidated. steadily.
  - unfold delete. case_decide; [split; [by eexists | done]|].
    destruct (gated_returns
                (access_token ← read_token;
                 found ← findUser env (username +:+ "@" +:+ O365DOMAIN (cfg env));
                 if negb found then mret "ERROR: user could not be found in o365!"
                 else
                   try_except
                     (auth ← str_add "Bearer " access_token;
                      response ← request env
                        (delete_request env
                           (username +:+ "@" +:+ O365DOMAIN (cfg env)) auth);
                      if decide (response.1 ≠ 204%Z) then
                        mret "ERROR: could not delete user in o365."
                      else mret "SUCCESS: user deleted in o365.")
                     (λ _, mret "ERROR: Could not delete o365 user."))
                w Hgrants Hw) as [[result Hres] Hw']; [steadily|].
    rewrite Hres in *. split; [by eexists | done].
Qed.

Lemma process_row_returns (row : gmap string PyVal) (w : World) :
  iterates_keys env → grants_text env → complete_row row → ascii_row row →
  token_usable w →
  (process_row env row w).1 = Ok () ∧ token_usable (process_row env row w).2.
Proof.
  intros Hiter Hgrants (action & Haction & [username Husername] & Hfields)
    Hascii Hw.
  assert ((∃ result, (dispatch env row w).1 = Ok result) ∧
          token_usable (dispatch env row w).2) as [[result Hres] Hw'].
  { pose (good := λ p : Result string * World,
                    (∃ result, p.1 = Ok result) ∧ token_usable p.2).
    change (good (dispatch env row w)).
    assert (∀ k v (f : PyVal → M string),
              row !! k = Some v → (getitem row k ≫= f) w = f v w) as Hread.
    { intros k v f Hk. rewrite bind_run. unfold getitem. by rewrite Hk. }
    assert (∀ k v (f : string → M string),
              row !! k = Some v → (field row k ≫= f) w = f (text_of v) w)
      as Hfield.
    { intros k v f Hk. rewrite bind_run. unfold field, getitem, str.
      rewrite bind_run, Hk. cbn [mret M_ret]. by rewrite (Hascii k v Hk). }
    unfold dispatch. rewrite (Hread _ _ _ Haction).
    unfold fields_read in Hfields.
    repeat case_decide; subst;
      repeat lazymatch type of Hfields with
        | Forall _ (?k :: _) =>
            apply Forall_cons_1 in Hfields as [[? Hk] Hfields];
            rewrite (Hfield _ _ _ Hk); clear Hk
        end.
    - apply (invoke_returns (Create _ _ _ _ _ _ _ _) w Hiter Hgrants Hw).
    - apply (invoke_returns (Update _ _ _ _ _ _ _) w Hiter Hgrants Hw).
    - apply (invoke_returns (Delete _) w Hiter Hgrants Hw).
    - unfold format, str. rewrite (Hascii _ _ Haction).
      split; [by eexists | done]. }
  pose proof (dispatch_ascii env row w result Hres) as Hresult.
  unfold process_row. rewrite bind_run.
  destruct (dispatch env row w) as [r w1]; cbn in Hres, Hw'. subst r.
  unfold getitem, writerow, mbind, M_bind, mret, M_ret.
  rewrite Haction, Husername. cbn [forallb encodable].
  rewrite (Hascii _ _ Haction), (Hascii _ _ Husername), Hresult.
  by split.
Qed.

Lemma for_rows_returns (rows : list (gmap string PyVal)) (w : World) :
  iterates_keys env → grants_text env →
  Forall complete_row rows → Forall ascii_row rows →
  token_usable w → (for_rows env rows w).1 = Ok ().
Proof.
  intros Hiter Hgrants Hrows. revert w.
  induction Hrows as [|row rest Hrow _ IH]; intros w Hascii Hw; [done|].
  apply Forall_cons_1 in Hascii as [Hascii Hrest].
  rewrite for_rows_cons.
  destruct (process_row_returns row w Hiter Hgrants Hrow Hascii Hw) as [Hret Hw1].
  destruct (process_row env row w) as [r w1]; cbn in *. subst r. by apply IH.
Qed.

(** X16: when every row has the keys that are read for it, every text of
    the rows is within ASCII and the login service grants text for a token,
    no turn raises: the run writes, after the header, exactly one row for
    every input row, in input order, whatever the directory answers. *)
Theorem complete_rows_are_all_answered (rows : list (gmap string PyVal)) :
  iterates_keys env → grants_text env →
  Forall complete_row rows → Forall ascii_row rows →
  ∃ written,
    f_out (main env rows startup).2 = csv_header :: written ∧
    Forall2 answers rows written.
Proof.
  intros Hiter Hgrants Hrows Hascii.
  destruct (for_rows_output env rows (header_written startup))
    as (n & written & Hout & Hans & _ & Hn).
  exists written. rewrite main_world. cbn [snd]. rewrite Hout.
  split; [done|].
  assert ((for_rows env rows (header_written startup)).1 = Ok ()) as Hret.
  { by apply for_rows_returns. }
  destruct Hn as [[-> _]|(row & e & _ & _ & Hraise)]; [|congruence].
  by rewrite firstn_all in Hans.
Qed.

End Complete.

(** * The settings file's name *)

Lemma substring_all (s : string) (m : nat) :
  String.length s ≤ m → String.substring 0 m s = s.
Proof.
  revert m. induction s as [|a s IH]; intros m Hm; [by destruct m|].
  change (S (String.length s) ≤ m) in Hm. destruct m as [|m]; [lia|].
  change (String a (String.substring 0 m s) = String a s).
  f_equal. apply IH. lia.
Qed.

Lemma substring_split (s : string) (k m : nat) :
  String.length s ≤ k + m →
  s = String.substring 0 k s +:+ String.substring k m s.
Proof.
  revert k. induction s as [|a s IH]; intros k Hk.
  { by destruct k, m. }
  change (S (String.length s) ≤ k + m) in Hk. destruct k as [|k].
  - rewrite (substring_all (String a s) m) by exact Hk. by destruct m.
  - change (String a s = String a (String.substring 0 k s +:+ String.substring k m s)).
    f_equal. apply IH. lia.
Qed.

Lemma substring_app_l (t u : string) :
  String.substring 0 (String.length t) (t +:+ u) = t.
Proof.
  induction t as [|a t IH]; [by destruct u|].
  change (String a (String.substring 0 (String.length t) (t +:+ u)) = String a t).
  by rewrite IH.
Qed.

Lemma substring_app_r (t u : string) (m : nat) :
  String.substring (String.length t) m (t +:+ u) = String.substring 0 m u.
Proof. induction t as [|a t IH]; [done|]. exact IH. Qed.

Lemma length_app_py (t : string) :
  String.length (t +:+ ".py") = String.length t + 3.
Proof.
  induction t as [|a t IH]; [done|].
  change (S (String.length (t +:+ ".py")) = S (String.length t + 3)).
  by rewrite IH.
Qed.

(** X17: [readConfig] imports the module named like the settings file without a
    final [.py]: that ending is cut off once, and a name that does not end
    in it, also one shorter than three characters, is kept as it is. *)
Theorem module_name_spec (config_file : string) :
  (∀ name, config_file = name +:+ ".py" → module_name config_file = name) ∧
  ((∀ name, config_file ≠ name +:+ ".py") → module_name config_file = config_file).
Proof.
  unfold module_name. cbv zeta. split.
  - intros name ->. rewrite length_app_py.
    replace (String.length name + 3 - 3) with (String.length name) by lia.
    rewrite substring_app_r, substring_app_l. by rewrite decide_True.
  - intros Hother. case_decide as Hpy; [|done]. exfalso.
    apply (Hother (String.substring 0 (String.length config_file - 3) config_file)).
    etrans; [apply (substring_split config_file
                      (String.length config_file - 3) 3); lia|].
    by rewrite Hpy.
Qed.

(** The name that [main] passes. *)
Lemma module_name_of_o365settings : module_name "o365settings.py" = "o365settings".
Proof. by apply (proj1 (module_name_spec "o365settings.py")). Defined.

(** * The further statements on concrete runs *)

(** Deleting bob, who exists, from a fresh start: token, lookup, DELETE. *)
Lemma delete_bob_found :
  (delete healthy "bob_s" startup).1 = Ok "SUCCESS: user deleted in o365." ∧
  wire (delete healthy "bob_s" startup).2
    = [token_request healthy;
       find_request healthy "bob_s@campus.edu" "Bearer t0k3n";
       delete_request healthy "bob_s@campus.edu" "Bearer t0k3n"].
Proof.
  apply (delete_found_outcome healthy "bob_s" "t0k3n" startup).
  - done.
  - reflexivity.
  - done.
  - right. by exists None.
Defined.

(** Deleting carol, who does not exist: the lookup is the last request. *)
Lemma delete_carol_not_found :
  (delete healthy "carol" startup).1 = Ok "ERROR: user could not be found in o365!" ∧
  wire (delete healthy "carol" startup).2
    = [token_request healthy;
       find_request healthy "carol@campus.edu" "Bearer t0k3n"].
Proof.
  apply (delete_not_found healthy "carol" "t0k3n" startup 404 None).
  - done.
  - reflexivity.
  - done.
  - reflexivity.
  - done.
Defined.

(** Creating alice, who exists. *)
Lemma create_alice_taken :
  (create healthy "alice" "False" "7" "Alice" "Alice Adams" "Adams" "Physics"
     "initial password" startup).1 = Ok "ERROR: username already taken!" ∧
  wire (create healthy "alice" "False" "7" "Alice" "Alice Adams" "Adams"
          "Physics" "initial password" startup).2
    = [token_request healthy;
       find_request healthy "alice@campus.edu" "Bearer t0k3n"].
Proof.
  apply (create_name_taken healthy "alice" "False" "7" "Alice" "Alice Adams"
           "Adams" "Physics" "initial password" "t0k3n" startup).
  - apply campus_iterates_keys.
  - by repeat constructor.
  - reflexivity.
  - done.
  - right. by exists None.
Defined.

(** Creating carol against a directory that answers 409 to the create
    request: no license request follows. *)
Lemma create_carol_refused :
  (create refusing "carol" "False" "9" "Carol" "Carol Crane" "Crane" "Biology"
     "initial password" startup).1
    = Ok "ERROR: user could not be created in o365." ∧
  wire (create refusing "carol" "False" "9" "Carol" "Carol Crane" "Crane"
          "Biology" "initial password" startup).2
    = [token_request refusing;
       find_request refusing "carol@campus.edu" "Bearer t0k3n";
       create_request refusing "carol@campus.edu" "Bearer t0k3n" "carol" "9"
         "Carol" "Carol Crane" "Crane" "Biology" "initial password"].
Proof.
  apply (create_outcome refusing "carol" "False" "9" "Carol" "Carol Crane"
           "Crane" "Biology" "initial password" "t0k3n" 404 None startup).
  - apply campus_iterates_keys.
  - by repeat constructor.
  - reflexivity.
  - done.
  - reflexivity.
  - done.
Defined.

(** Updating zed, who does not exist. *)
Lemma update_zed_not_found :
  (update healthy "zed" "zack" "False" "Zed" "Zed Zorn" "Zorn" "Music" startup).1
    = Ok "ERROR: user could not be found in o365!" ∧
  wire (update healthy "zed" "zack" "False" "Zed" "Zed Zorn" "Zorn" "Music"
          startup).2
    = [token_request healthy;
       find_request healthy "zed@campus.edu" "Bearer t0k3n"].
Proof.
  apply (update_not_found healthy "zed" "zack" "False" "Zed" "Zed Zorn" "Zorn"
           "Music" "t0k3n" 404 None startup).
  - apply campus_iterates_keys.
  - by repeat constructor.
  - reflexivity.
  - done.
  - reflexivity.
  - done.
Defined.

(** Renaming alice to bob_s, who exists as well. *)
Lemma rename_alice_to_bob :
  (update healthy "alice" "bob_s" "False" "Alice" "Alice Adams" "Adams"
     "Physics" startup).1 = Ok "ERROR: username already taken!" ∧
  wire (update healthy "alice" "bob_s" "False" "Alice" "Alice Adams" "Adams"
          "Physics" startup).2
    = [token_request healthy;
       find_request healthy "alice@campus.edu" "Bearer t0k3n";
       find_request healthy "bob_s@campus.edu" "Bearer t0k3n"].
Proof.
  apply (update_new_name_taken healthy "alice" "bob_s" "False" "Alice"
           "Alice Adams" "Adams" "Physics" "t0k3n" startup).
  - apply campus_iterates_keys.
  - by repeat constructor.
  - done.
  - reflexivity.
  - done.
  - right. by exists None.
  - right. by exists None.
Defined.

(** Renaming alice to alicia with the login disabled: the PATCH carries
    [accountEnabled] as ["False"]. *)
Lemma rename_alice_to_alicia :
  (update healthy "alice" "alicia" "True" "Alicia" "Alicia Adams" "Adams"
     "Physics" startup).1 = Ok "SUCCESS: user was updated in o365." ∧
  wire (update healthy "alice" "alicia" "True" "Alicia" "Alicia Adams" "Adams"
          "Physics" startup).2
    = [token_request healthy;
       find_request healthy "alice@campus.edu" "Bearer t0k3n";
       find_request healthy "alicia@campus.edu" "Bearer t0k3n";
       patch_request healthy "alice@campus.edu" "Bearer t0k3n"
         "alicia@campus.edu" "False" "Alicia" "Alicia Adams" "Adams" "alicia"
         "Physics"].
Proof.
  apply (update_rename_outcome healthy "alice" "alicia" "True" "Alicia"
           "Alicia Adams" "Adams" "Physics" "t0k3n" 404 None startup).
  - apply campus_iterates_keys.
  - by repeat constructor.
  - done.
  - reflexivity.
  - done.
  - right. by exists None.
  - reflexivity.
  - done.
Defined.

(** The login service grants the number 5: the first delete raises after
    the token request, before any directory call. *)
Lemma delete_with_numeric_token :
  invoke numeric_token (Delete "bob_s") startup
    = (Raise TypeError,
       {| ACCESS_TOKEN := PInt 5; wire := [token_request numeric_token];
          f_out := [] |}).
Proof.
  apply (non_text_token_raises numeric_token (Delete "bob_s") startup).
  - apply campus_iterates_keys.
  - by repeat constructor.
  - reflexivity.
  - done.
Defined.

(** The row of the specification's example, and the same word in capitals. *)
Lemma bogus_row_answered :
  process_row healthy bogus_row startup
    = (Ok (),
       {| ACCESS_TOKEN := PNone; wire := [];
          f_out := [[PStr "bogus"; PStr "x";
                     PStr "ERROR: Unrecognized action."]] |}).
Proof.
  apply (unrecognized_action_row healthy bogus_row (PStr "bogus") (PStr "x")
           startup).
  - reflexivity.
  - reflexivity.
  - intros Hin. repeat (apply elem_of_cons in Hin as [?|Hin]; [done|]).
    by apply elem_of_nil in Hin.
Defined.

(** A delete row without [username]. *)
Lemma nameless_delete_raises :
  ∃ e, dispatch healthy nameless_delete startup = (Raise e, startup) ∧
       process_row healthy nameless_delete startup = (Raise e, startup) ∧
       (e = UnicodeEncodeError ∨
        ∃ k, k ∈ fields_read (PStr "delete") ∧ nameless_delete !! k = None ∧
             e = KeyError k) ∧
       (ascii_row nameless_delete →
        ∃ k, k ∈ fields_read (PStr "delete") ∧ nameless_delete !! k = None ∧
             e = KeyError k).
Proof.
  apply (missing_field_raises healthy nameless_delete (PStr "delete") startup).
  - reflexivity.
  - by left.
Defined.

(** Two rows run with a cached token against a login service that would
    grant another one. *)
Lemma token_kept_when_signed_in :
  ACCESS_TOKEN (main numeric_token [delete_bob; create_carol] signed_in).2
    = PStr "t0k3n".
Proof.
  apply (cached_token_is_kept numeric_token [delete_bob; create_carol] signed_in).
  reflexivity.
Defined.

(** The license request of a run that creates carol. *)
Lemma license_request_is_scoped :
  (∃ path, below_domain healthy path
             (license_request healthy "carol@campus.edu" "Bearer t0k3n" "carol")) ∧
  (host (license_request healthy "carol@campus.edu" "Bearer t0k3n" "carol")
     = "login.windows.net" ∧
   license_request healthy "carol@campus.edu" "Bearer t0k3n" "carol"
     = token_request healthy ∨
   host (license_request healthy "carol@campus.edu" "Bearer t0k3n" "carol")
     = "graph.windows.net" ∧
   ∃ auth, ("Authorization", auth) ∈
             headers (license_request healthy "carol@campus.edu" "Bearer t0k3n"
                        "carol")).
Proof.
  apply (requests_are_scoped healthy [create_carol]).
  assert (wire (main healthy [create_carol] startup).2 =
          [token_request healthy;
           find_request healthy "carol@campus.edu" "Bearer t0k3n";
           create_request healthy "carol@campus.edu" "Bearer t0k3n" "carol"
             "1554943643675475475437" "Carol" "Carol Crane" "Crane" "Biology"
             "initial password";
           license_request healthy "carol@campus.edu" "Bearer t0k3n" "carol"])
    as -> by (by vm_compute).
  do 3 right. by left.
Defined.

Lemma healthy_grants_text : grants_text healthy.
Proof.
  intros sent data tok Hreply Htok _. vm_compute in Hreply.
  injection Hreply as <-. vm_compute in Htok. injection Htok as <-. by eexists.
Defined.

Lemma record_is_complete (action username newusername loginDisabled : string)
    (UDCid : Z) (givenName fullName sn primO userPassword : string) :
  complete_row (record action username newusername loginDisabled UDCid givenName
                  fullName sn primO userPassword).
Proof.
  exists (PStr action). split; [done|]. split; [by eexists|].
  unfold fields_read. repeat case_decide; repeat constructor; by eexists.
Defined.

Lemma records_are_ascii :
  Forall ascii_row [create_carol; edit_alice; rename_alice; delete_bob].
Proof.
  repeat constructor;
    unfold create_carol, edit_alice, rename_alice, delete_bob, record;
    repeat (apply map_Forall_insert_2; [reflexivity|]);
    apply map_Forall_empty.
Defined.

(** A run of four complete rows: four rows are written. *)
Lemma four_rows_answered :
  ∃ written,
    f_out (main healthy [create_carol; edit_alice; rename_alice; delete_bob]
             startup).2 = csv_header :: written ∧
    Forall2 answers [create_carol; edit_alice; rename_alice; delete_bob] written.
Proof.
  apply (complete_rows_are_all_answered healthy
           [create_carol; edit_alice; rename_alice; delete_bob]).
  - apply campus_iterates_keys.
  - apply healthy_grants_text.
  - repeat constructor; apply record_is_complete.
  - apply records_are_ascii.
Defined.

(** * The files of a run *)

(** X18: [main] returns exactly when both files could be opened, whatever the
    input holds.  When the input file cannot be opened, the handler reports
    it and the [finally] block then closes [f_in], which was never bound:
    the run ends with [UnboundLocalError]; with a readable input and an
    output file that cannot be opened, it is [f_out].  In both cases
    nothing was sent or written. *)
Theorem main_returns_iff_files_open (env : Env) (input : InputFile)
    (writable : bool) (w : World) :
  ((main_with_files env input writable w).1 = Ok () ↔
   input ≠ Unreadable ∧ writable = true) ∧
  (input = Unreadable →
   main_with_files env input writable w = (Raise (UnboundLocalError "f_in"), w)) ∧
  (input ≠ Unreadable → writable = false →
   main_with_files env input writable w = (Raise (UnboundLocalError "f_out"), w)).
Proof.
  assert (∀ rows, main_with_files env (Document (Some rows)) true w
                  = (Ok (), (main env rows w).2)) as Hrows.
  { intros rows. unfold main_with_files. cbv zeta. rewrite bind_run.
    by rewrite (main_world env rows w). }
  destruct input as [| |[rows|]], writable;
    rewrite ?Hrows; repeat split; try done; try (by intros [? ?]);
    try (by intros [[] ?]).
Qed.

(** A run whose input file is missing. *)
Lemma main_without_input_file :
  main_with_files healthy Unreadable true startup
    = (Raise (UnboundLocalError "f_in"), startup).
Proof.
  by apply (proj1 (proj2 (main_returns_iff_files_open healthy Unreadable true
                            startup))).
Defined.

(** * Values that are not text *)

(** X13: a username that is not text is not refused: [main] converts it
    with [str], so anything but the empty text passes the blank check, and
    with a token cached [delete] looks up the converted name, [None] for a
    JSON null, below the domain.  The row that is written carries the value
    as the input had it.  The one value that does not convert is text
    beyond ASCII: on it [str] raises [UnicodeEncodeError] before anything is
    sent or written. *)
Theorem converted_username_is_looked_up (env : Env) (row : gmap string PyVal)
    (v : PyVal) (tok : string) (w : World) :
  row !! "action" = Some (PStr "delete") →
  row !! "username" = Some v →
  v ≠ PStr "" →
  ACCESS_TOKEN w = PStr tok → tok ≠ "" →
  if encodable v then
    ∃ rest result,
      wire (process_row env row w).2 =
        wire w ++ find_request env (text_of v +:+ "@" +:+ O365DOMAIN (cfg env))
                    ("Bearer " +:+ tok) :: rest ∧
      f_out (process_row env row w).2
        = f_out w ++ [[PStr "delete"; v; PStr result]]
  else process_row env row w = (Raise UnicodeEncodeError, w).
Proof.
  intros Haction Husername Hv Htok Hne.
  assert (dispatch env row w = (field row "username" ≫= delete env) w) as Hsel.
  { unfold dispatch. rewrite bind_run. unfold getitem at 1. rewrite Haction.
    cbn [mret M_ret]. rewrite decide_False by done.
    rewrite decide_False by done. by rewrite decide_True. }
  destruct (encodable v) eqn:Henc.
  2: { unfold process_row. rewrite bind_run, Hsel, bind_run.
       unfold field, getitem, str. rewrite bind_run, Husername.
       cbn [mret M_ret]. by rewrite Henc. }
  assert (text_of v ≠ "") as Hstr by (by intros ?%text_of_blank_iff).
  assert (truthy (ACCESS_TOKEN w) = true) as Ht.
  { rewrite Htok. cbn. by apply bool_decide_eq_true_2. }
  set (upn := text_of v +:+ "@" +:+ O365DOMAIN (cfg env)).
  set (lookup := find_request env upn ("Bearer " +:+ tok)).
  assert (∃ rest result,
            dispatch env row w =
              (Ok result, {| ACCESS_TOKEN := ACCESS_TOKEN w;
                             wire := wire w ++ lookup :: rest;
                             f_out := f_out w |})) as (rest & result & Hrun).
  { rewrite Hsel, bind_run. unfold field, getitem, str.
    rewrite bind_run, Husername. cbn [mret M_ret]. rewrite Henc.
    cbn [mret M_ret]. unfold delete. rewrite decide_False by done.
    rewrite bind_run, (have_token_cached env w Ht). cbn [fst snd negb].
    rewrite bind_run. cbn [read_token fst snd]. rewrite Htok. fold upn.
    rewrite bind_run.
    assert ((server env (wire w) lookup = Fail ∨
             ∃ data, server env (wire w) lookup = Status 200 data) ∨
            ∃ code data, server env (wire w) lookup = Status code data ∧
                         code ≠ 200%Z) as [Hfound|(code & data & Hreply & Hcode)].
    { destruct (server env (wire w) lookup) as [code data|]; [|by left; left].
      destruct (decide (code = 200%Z)) as [->|Hcode]; [left; right|right]; eauto. }
    - rewrite (findUser_found env upn tok w Htok Hfound). fold lookup.
      cbn [negb fst snd]. unfold try_except. rewrite bind_run.
      cbn [str_add mret M_ret fst snd]. rewrite bind_run.
      set (deletion := delete_request env upn ("Bearer " +:+ tok)).
      set (w2 := {| ACCESS_TOKEN := ACCESS_TOKEN w; wire := wire w ++ [lookup];
                    f_out := f_out w |}).
      destruct (server env (wire w2) deletion) as [code data|] eqn:Hreply.
      + rewrite (request_status env deletion w2 code data Hreply).
        cbn [fst snd wire ACCESS_TOKEN f_out w2]. rewrite <- app_assoc, ?Htok.
        exists [deletion]. case_decide; eexists; reflexivity.
      + rewrite (request_fail env deletion w2 Hreply).
        cbn [fst snd wire ACCESS_TOKEN f_out w2]. rewrite <- app_assoc, ?Htok.
        exists [deletion]. eexists; reflexivity.
    - rewrite (findUser_not_found env upn tok w code data Htok Hreply Hcode).
      exists [], "ERROR: user could not be found in o365!". by rewrite ?Htok. }
  assert (ascii_text result = true) as Hresult.
  { apply (dispatch_ascii env row w). by rewrite Hrun. }
  exists rest, result. unfold process_row.
  rewrite bind_run, Hrun. cbn [fst snd]. rewrite bind_run.
  unfold getitem. rewrite Haction. cbn [mret M_ret]. rewrite bind_run, Husername.
  cbn [mret M_ret]. unfold writerow. cbn [forallb encodable ascii_text].
  rewrite Henc, Hresult. done.
Qed.

(** A delete row whose username is null, with a token cached: the user
    [None] of the campus is looked up. *)
Lemma delete_null_looks_up_None :
  ∃ rest result,
    wire (process_row healthy delete_null signed_in).2 =
      wire signed_in ++ find_request healthy (text_of PNone +:+ "@" +:+
                                              O365DOMAIN (cfg healthy))
                          ("Bearer " +:+ "t0k3n") :: rest ∧
    f_out (process_row healthy delete_null signed_in).2 =
      f_out signed_in ++ [[PStr "delete"; PNone; PStr result]].
Proof.
  apply (converted_username_is_looked_up healthy delete_null PNone "t0k3n"
           signed_in); done.
Defined.
